(** * The HTTP request executor of the Airbyte CDK: [HttpClient]

    A shallow embedding of
    [airbyte_cdk/sources/streams/http/http_client.py]: request construction
    ([_dedupe_query_params], [_create_prepared_request]), the resolution of the
    retry limits ([_send_with_retry]), one attempt ([_send]) and the public
    entry point ([send_request]).

    Conventions of the embedding.
    - Python dictionaries are [gmap]s; the dictionary keyed by
      [PreparedRequest] objects is keyed by the identity of the object.
    - Mutable state of the client (the attempt counters, the logger, the
      session, the wall clock) is threaded explicitly through [ClientState].
    - A call either returns or raises: [result].
    - Delays and factors, in seconds, are rationals.
    - The modules [error_handlers] and [rate_limiting] are not among the
      sources: the resolution type and the two retry handlers that
      [_send_with_retry] wraps around [_send], one inside the other, follow
      the specification, and say so where they are defined.  The handlers
      take fuel; [_send_with_retry_total] shows how much is enough.
    - What [requests] makes of a URL and its query parameters when it
      prepares a request is a function of the session.

    The file also embeds the streams of [source_mixpanel/streams/base.py]
    (module [Mixpanel]) and [Source.read_state] of
    [airbyte_cdk/sources/source.py] (module [Source]). *)

From Stdlib Require Import QArith Ascii String.
From Stdlib Require OrdersEx.
From stdpp Require Import gmap strings list fin_maps pretty.

Local Open Scope string_scope.

(** ** Python primitives used by the client *)

Module Py.

(** [str.upper] on the ASCII range (characters above 127 are left alone). *)
Definition upper_ascii (c : ascii) : ascii :=
  let n := nat_of_ascii c in
  if (97 <=? n)%nat && (n <=? 122)%nat then ascii_of_nat (n - 32) else c.

Fixpoint upper (s : string) : string :=
  match s with
  | EmptyString => EmptyString
  | String c s' => String (upper_ascii c) (upper s')
  end.

(** [str(x)] for an [Optional[str]]: [str(None)] is the text [None]. *)
Definition str_opt (o : option string) : string :=
  match o with
  | None => "None"
  | Some s => s
  end.

(** Truth value of a string. *)
Definition truthy_str (s : string) : bool :=
  match s with
  | EmptyString => false
  | _ => true
  end.

(** [a or b] where [a] is an [Optional[str]] and [b] a string. *)
Definition or_str (a : option string) (b : string) : string :=
  match a with
  | Some s => if truthy_str s then s else b
  | None => b
  end.

(** Truth value of an [Optional[float]]: [None] and zero are false. *)
Definition truthy_num (o : option Q) : bool :=
  match o with
  | None => false
  | Some q => negb (Qnum q =? 0)%Z
  end.

(** Truth value of an optional mapping: [None] and the empty dict are false. *)
Definition truthy_map {V} (o : option (gmap string V)) : bool :=
  match o with
  | None => false
  | Some m => negb (bool_decide (m = ∅))
  end.

(** [s.split(sep)] for a one-character separator. *)
Fixpoint split (sep : ascii) (s : string) : list string :=
  match s with
  | EmptyString => [EmptyString]
  | String c s' =>
      if Ascii.eqb c sep then EmptyString :: split sep s'
      else match split sep s' with
           | h :: t => String c h :: t
           | [] => [String c EmptyString]
           end
  end.

(** [s.split(sep, 1)]: the text before the first separator and, when there
    is one, the text after it. *)
Fixpoint split_once (sep : ascii) (s : string) : string * option string :=
  match s with
  | EmptyString => (EmptyString, None)
  | String c s' =>
      if Ascii.eqb c sep then (EmptyString, Some s')
      else let '(h, t) := split_once sep s' in (String c h, t)
  end.

(** [s.replace(a, b)] for single characters. *)
Fixpoint replace_char (a b : ascii) (s : string) : string :=
  match s with
  | EmptyString => EmptyString
  | String c s' => String (if Ascii.eqb c a then b else c) (replace_char a b s')
  end.

End Py.

(** ** [urllib.parse]: the query string of a URL *)

Module Url.

Definition hex_digit (c : ascii) : option nat :=
  let n := nat_of_ascii c in
  if (48 <=? n)%nat && (n <=? 57)%nat then Some (n - 48)
  else if (65 <=? n)%nat && (n <=? 70)%nat then Some (n - 55)
  else if (97 <=? n)%nat && (n <=? 102)%nat then Some (n - 87)
  else None.

(** [unquote]: every [%XY] with two hexadecimal digits becomes the character
    with that code; any other [%] is kept.  (Python decodes the bytes as
    UTF-8; the two agree on the ASCII range.) *)
Fixpoint unquote (s : string) : string :=
  match s with
  | EmptyString => EmptyString
  | String c s1 =>
      if Ascii.eqb c "%" then
        match s1 with
        | String a (String b rest) =>
            match hex_digit a, hex_digit b with
            | Some x, Some y => String (ascii_of_nat (16 * x + y)) (unquote rest)
            | _, _ => String c (unquote s1)
            end
        | _ => String c (unquote s1)
        end
      else String c (unquote s1)
  end.

(** [urlparse(url).query]: the fragment is cut at the first [#], then the
    query is what follows the first [?]. *)
Definition query (url : string) : string :=
  match Py.split_once "?" (Py.split_once "#" url).1 with
  | (_, Some q) => q
  | (_, None) => EmptyString
  end.

(** [parse_qsl] with its defaults: fields are separated by [&]; a field
    without [=] or with a blank value is dropped; [+] is a space. *)
Definition parse_field (name_value : string) : option (string * string) :=
  match Py.split_once "=" name_value with
  | (n, Some v) =>
      if Py.truthy_str v
      then Some (unquote (Py.replace_char "+" " " n), unquote (Py.replace_char "+" " " v))
      else None
  | (_, None) => None
  end.

Definition parse_qsl (qs : string) : list (string * string) :=
  if Py.truthy_str qs then omap parse_field (Py.split "&" qs) else [].

(** [parse_qs]: the values of each name, in order of appearance. *)
Definition parse_qs (qs : string) : gmap string (list string) :=
  foldl (λ (m : gmap string (list string)) (nv : string * string),
           match m !! nv.1 with
           | Some vs => <[nv.1 := (vs ++ [nv.2])%list]> m
           | None => <[nv.1 := [nv.2]]> m
           end) ∅ (parse_qsl qs).

End Url.

(** ** The [requests] objects the client handles *)

(** A response: only what the client reads from it. *)
Record Response := {
  status_code : Z;
  text : string;
}.

(** [Response.raise_for_status] raises [HTTPError] for the client and server
    error codes. *)
Definition raises_for_status (r : Response) : bool :=
  (400 <=? status_code r)%Z && (status_code r <? 600)%Z.

(** [Response.ok], which is also the truth value of a [Response] object
    ([Response.__bool__]): true when [raise_for_status] would not raise. *)
Definition ok (r : Response) : bool := negb (raises_for_status r).

(** A [requests.RequestException], with the text [str(e)] gives. *)
Record RequestException := {
  exc_text : string;
}.

(** The body passed as [data]: a string or a mapping. *)
Inductive BodyData :=
| DataStr (s : string)
| DataMap (m : gmap string string).

Definition truthy_data (data : option BodyData) : bool :=
  match data with
  | None => false
  | Some (DataStr s) => Py.truthy_str s
  | Some (DataMap m) => negb (bool_decide (m = ∅))
  end.

(** The keyword arguments [_create_prepared_request] gives to
    [requests.Request]. *)
Record RequestArgs := {
  arg_method : string;
  arg_url : string;
  arg_headers : option (gmap string string);
  arg_params : gmap string string;
  arg_json : option (gmap string string);
  arg_data : option BodyData;
}.

(** A [PreparedRequest].  [req_id] is the identity of the Python object: the
    class defines neither [__eq__] nor [__hash__], so a dictionary keyed by
    prepared requests is keyed by identity.  The method is upper-cased by
    [prepare_method]; [req_url] is the URL as [requests] prepared it, with
    the query parameters merged in.  [req_params], [req_json] and [req_data]
    are not attributes of the Python object: they record the parameters and
    the body the request was prepared from. *)
Record PreparedRequest := {
  req_id : nat;
  req_method : string;
  req_url : string;
  req_headers : option (gmap string string);
  req_params : gmap string string;
  req_json : option (gmap string string);
  req_data : option BodyData;
}.

(** What one attempt produced: [response if response is not None else exc]. *)
Inductive Outcome :=
| GotResponse (r : Response)
| GotException (e : RequestException).

(** ** Error handlers and backoff strategies *)

(** Modelled from the spec: the enumeration [ResponseAction] of the module
    [error_handlers], which is not among the sources; in the words of the data
    model, an action is one of SUCCEED, FAIL, IGNORE and RETRY. *)
Inductive ResponseAction := SUCCEED | FAIL | IGNORE | RETRY.

(** Modelled from the spec: the enumeration [FailureType], not among the
    sources; a failure kind is one of CONFIG, TRANSIENT and SYSTEM. *)
Inductive FailureType := CONFIG | TRANSIENT | SYSTEM.

(** Modelled from the spec: the class [ErrorResolution] of [error_handlers];
    an action, a failure kind and an optional message. *)
Record ErrorResolution := {
  response_action : ResponseAction;
  failure_type : FailureType;
  error_message : option string;
}.

(** Modelled from the spec: [str] of the two enumerations, which are not
    among the sources; the members are printed under their names in the
    specification. *)
Definition str_action (a : ResponseAction) : string :=
  match a with
  | SUCCEED => "ResponseAction.SUCCEED"
  | FAIL => "ResponseAction.FAIL"
  | IGNORE => "ResponseAction.IGNORE"
  | RETRY => "ResponseAction.RETRY"
  end.

(** Modelled from the spec: see [str_action]. *)
Definition str_failure (f : FailureType) : string :=
  match f with
  | CONFIG => "FailureType.CONFIG"
  | TRANSIENT => "FailureType.TRANSIENT"
  | SYSTEM => "FailureType.SYSTEM"
  end.

(** An optional attribute of an object, as [hasattr(o, a) and o.a is not None]
    sees it: absent, present and [None], or present with a value. *)
Inductive Attr (A : Type) :=
| Absent
| IsNone
| Value (a : A).
Arguments Absent {A}.
Arguments IsNone {A}.
Arguments Value {A} a.

(** The value an attribute exposes, if any. *)
Definition exposed {A} (a : Attr A) : option A :=
  match a with
  | Value v => Some v
  | _ => None
  end.

Record ErrorHandler := {
  interpret_response : Outcome → ErrorResolution;
  eh_max_retries : Attr Z;
  eh_max_time : Attr Z;
}.

Record BackoffStrategy := {
  backoff_time : Outcome → nat → option Q;
  bs_max_retries : Attr Z;
  bs_max_time : Attr Z;
  bs_factor : Attr Q;
}.

(** ** Exceptions and results *)

Inductive Exn :=
| RequestBodyException (msg : string)
| AirbyteTracedException (internal_message message : string) (failure : FailureType)
| UserDefinedBackoffException (backoff : Q) (request : PreparedRequest)
    (response : Outcome) (msg : string)
| DefaultBackoffException (request : PreparedRequest) (response : Outcome) (msg : string)
| HTTPError (response : Response).

Inductive result (A : Type) :=
| Returned (a : A)
| Raised (e : Exn).
Arguments Returned {A} a.
Arguments Raised {A} e.

(** ** The client and its mutable state *)

Inductive Level := DEBUG | INFO | ERROR.

(** The session: what the [n]-th call of [session.send] (counted over the life
    of the client) answers for a request, how long that call takes, and the
    URL that [session.prepare_request] gives a request made of a URL and
    query parameters (the library merges the parameters into the query and
    normalises the address; both are its own business). *)
Record Session := {
  session_send : nat → PreparedRequest → gmap string string → Response + RequestException;
  session_duration : nat → Q;
  session_prepare_url : string → gmap string string → string;
}.

(** [session.prepare_request(requests.Request( **args ))] creating the object
    with identity [id]: [req_url] is the URL as the session prepared it from
    the given URL and parameters; [req_params], [req_json] and [req_data]
    record the arguments the request was prepared from.  (The refusal by
    [requests] of a malformed URL is not modelled.) *)
Definition prepare_request (session : Session) (id : nat) (args : RequestArgs)
    : PreparedRequest :=
  {| req_id := id;
     req_method := Py.upper (arg_method args);
     req_url := session_prepare_url session (arg_url args) (arg_params args);
     req_headers := arg_headers args;
     req_params := arg_params args;
     req_json := arg_json args;
     req_data := arg_data args |}.

Record HttpClient := {
  _error_handler : ErrorHandler;
  _backoff_strategies : list BackoffStrategy;
  _error_message_parser : Response → option string;
  _session : Session;
  debug_enabled : bool;
}.

Record ClientState := {
  _request_attempt_count : gmap nat nat;
  logged : list (Level * string);
  sent : nat;
  now : Q;
  allocated : nat;
}.

Definition BODY_REQUEST_METHODS : list string := ["GET"; "POST"; "PUT"; "PATCH"].

Definition _DEFAULT_MAX_RETRY : Z := 5.
Definition _DEFAULT_RETRY_FACTOR : Q := 5.
Definition _DEFAULT_MAX_TIME : Z := 60 * 10.

Definition initial_state : ClientState :=
  {| _request_attempt_count := ∅; logged := []; sent := 0; now := 0; allocated := 0 |}.

(** State updates. *)
Definition log_call (lvl : Level) (msg : string) (st : ClientState) : ClientState :=
  {| _request_attempt_count := _request_attempt_count st;
     logged := logged st ++ [(lvl, msg)];
     sent := sent st;
     now := now st;
     allocated := allocated st |}.

Definition set_attempts (m : gmap nat nat) (st : ClientState) : ClientState :=
  {| _request_attempt_count := m;
     logged := logged st;
     sent := sent st;
     now := now st;
     allocated := allocated st |}.

(** One more call of the transport, which lasted [d] seconds. *)
Definition called (d : Q) (st : ClientState) : ClientState :=
  {| _request_attempt_count := _request_attempt_count st;
     logged := logged st;
     sent := S (sent st);
     now := now st + d;
     allocated := allocated st |}.

(** [time.sleep(d)]. *)
Definition sleep (d : Q) (st : ClientState) : ClientState :=
  {| _request_attempt_count := _request_attempt_count st;
     logged := logged st;
     sent := sent st;
     now := now st + d;
     allocated := allocated st |}.

(** A new object is created; its identity is the number of objects so far. *)
Definition allocate (st : ClientState) : nat * ClientState :=
  (allocated st,
   {| _request_attempt_count := _request_attempt_count st;
      logged := logged st;
      sent := sent st;
      now := now st;
      allocated := S (allocated st) |}).

(** ** Request construction *)

(** [_dedupe_query_params]. *)
Definition query_dict (url : string) : gmap string string :=
  omap head (Url.parse_qs (Url.query url)).

Definition duplicate_keys_with_same_value
    (query_dict params : gmap string string) : gset string :=
  dom (filter (λ kv : string * string, Py.str_opt (params !! kv.1) = kv.2) query_dict).

Definition _dedupe_query_params (url : string) (params : option (gmap string string))
    : gmap string string :=
  let params := default ∅ params in
  let dups := duplicate_keys_with_same_value (query_dict url) params in
  filter (λ kv : string * string, kv.1 ∉ dups) params.

(** [_create_prepared_request]. *)
Definition _create_prepared_request (self : HttpClient) (http_method url : string)
    (dedupe_query_params : bool) (headers params : option (gmap string string))
    (json : option (gmap string string)) (data : option BodyData) (st : ClientState)
    : result PreparedRequest * ClientState :=
  let query_params :=
    if dedupe_query_params then _dedupe_query_params url params
    else default ∅ params in
  let args body_json body_data :=
    {| arg_method := http_method; arg_url := url; arg_headers := headers;
       arg_params := query_params; arg_json := body_json; arg_data := body_data |} in
  let prepare a :=
    let '(id, st') := allocate st in (Returned (prepare_request (_session self) id a), st') in
  if bool_decide (Py.upper http_method ∈ BODY_REQUEST_METHODS) then
    if Py.truthy_map json && truthy_data data then
      (Raised (RequestBodyException
         "At the same time only one of the 'request_body_data' and 'request_body_json' functions can return data"),
       st)
    else if Py.truthy_map json then prepare (args json None)
    else if truthy_data data then prepare (args None data)
    else prepare (args None None)
  else prepare (args None None).

(** ** One attempt: [_send] *)

(** The counter of the request is created at 1 or incremented. *)
Definition count_attempt (request : PreparedRequest) (m : gmap nat nat) : gmap nat nat :=
  match m !! req_id request with
  | None => <[req_id request := 1]> m
  | Some n => <[req_id request := S n]> m
  end.

(** [self._request_attempt_count[request]]. *)
Definition attempt_count (request : PreparedRequest) (st : ClientState) : nat :=
  default 0 (_request_attempt_count st !! req_id request).

(** The [try] block around [session.send]: a response, or the
    [RequestException] that was caught. *)
Definition transport (self : HttpClient) (request : PreparedRequest)
    (request_kwargs : gmap string string) (st : ClientState)
    : (Response + RequestException) * ClientState :=
  (session_send (_session self) (sent st) request request_kwargs,
   called (session_duration (_session self) (sent st)) st).

Definition response_of (answer : Response + RequestException) : option Response :=
  match answer with
  | inl r => Some r
  | inr _ => None
  end.

Definition exc_of (answer : Response + RequestException) : option RequestException :=
  match answer with
  | inl _ => None
  | inr e => Some e
  end.

(** [response if response is not None else exc]. *)
Definition outcome_of (answer : Response + RequestException) : Outcome :=
  match answer with
  | inl r => GotResponse r
  | inr e => GotException e
  end.

(** The loop over the strategies, left at the first true delay. *)
Fixpoint custom_backoff_time (strategies : list BackoffStrategy) (outcome : Outcome)
    (attempt : nat) : option Q :=
  match strategies with
  | [] => None
  | backoff_strategy :: rest =>
      let t := backoff_time backoff_strategy outcome attempt in
      if Py.truthy_num t then t else custom_backoff_time rest outcome attempt
  end.

(** The two messages of the FAIL branch.  The test [if response:] is on the
    truth value of the object: [None] is false, and a [Response] is true when
    it is [ok]. *)
Definition status_message (self : HttpClient) (request : PreparedRequest) (r : Response)
    : string :=
  "'" +:+ req_method request +:+ "' request to '" +:+ req_url request
  +:+ "' failed with status code '" +:+ pretty (status_code r)
  +:+ "' and error message '" +:+ Py.str_opt (_error_message_parser self r) +:+ "'".

Definition exception_message (request : PreparedRequest) (exc : option RequestException)
    : string :=
  "'" +:+ req_method request +:+ "' request to '" +:+ req_url request
  +:+ "' failed with exception: '" +:+ Py.str_opt (exc_text <$> exc) +:+ "'".

Definition fail_message (self : HttpClient) (request : PreparedRequest)
    (response : option Response) (exc : option RequestException) : string :=
  match response with
  | Some r => if ok r then status_message self request r else exception_message request exc
  | None => exception_message request exc
  end.

(** The two messages of the IGNORE branch. *)
Definition ignore_message (request : PreparedRequest) (response : option Response)
    (exc : option RequestException) : string :=
  let by_error :=
    "Ignoring response for '" +:+ req_method request +:+ "' request to '"
    +:+ req_url request +:+ "' with error '" +:+ Py.str_opt (exc_text <$> exc) +:+ "'" in
  match response with
  | Some r =>
      if ok r then
        "Ignoring response for '" +:+ req_method request +:+ "' request to '"
        +:+ req_url request +:+ "' with response code '" +:+ pretty (status_code r) +:+ "'"
      else by_error
  | None => by_error
  end.

Definition retry_message (request : PreparedRequest) (res : ErrorResolution) : string :=
  Py.or_str (error_message res)
    ("Request to " +:+ req_url request +:+ " failed with failure type "
     +:+ str_failure (failure_type res) +:+ ", response action "
     +:+ str_action (response_action res) +:+ ".").

(** The chain [if ... FAIL / elif ... IGNORE / elif ... RETRY / elif response]
    that ends [_send], on the answer of the transport and its resolution. *)
Definition _send_dispatch (self : HttpClient) (request : PreparedRequest)
    (answer : Response + RequestException) (error_resolution : ErrorResolution)
    (st : ClientState) : result (option Response) * ClientState :=
  let response := response_of answer in
  let exc := exc_of answer in
  let outcome := outcome_of answer in
  match response_action error_resolution with
  | FAIL =>
      let error_message_ := fail_message self request response exc in
      (Raised (AirbyteTracedException error_message_
                 (Py.or_str (error_message error_resolution) error_message_)
                 (failure_type error_resolution)), st)
  | IGNORE =>
      let log_message := ignore_message request response exc in
      (Returned response,
       log_call INFO (Py.or_str (error_message error_resolution) log_message) st)
  | RETRY =>
      let custom :=
        custom_backoff_time (_backoff_strategies self) outcome (attempt_count request st) in
      let error_message_ := retry_message request error_resolution in
      match custom with
      | Some t =>
          if Py.truthy_num custom
          then (Raised (UserDefinedBackoffException t request outcome error_message_), st)
          else (Raised (DefaultBackoffException request outcome error_message_), st)
      | None => (Raised (DefaultBackoffException request outcome error_message_), st)
      end
  | SUCCEED =>
      match response with
      | Some r =>
          if ok r then
            if raises_for_status r
            then (Raised (HTTPError r), log_call ERROR (text r) st)
            else (Returned response, st)
          else (Returned response, st)
      | None => (Returned response, st)
      end
  end.

Definition _send (self : HttpClient) (request : PreparedRequest)
    (request_kwargs : gmap string string) (st : ClientState)
    : result (option Response) * ClientState :=
  let st := set_attempts (count_attempt request (_request_attempt_count st)) st in
  let st := log_call DEBUG "Making outbound API request" st in
  let '(answer, st) := transport self request request_kwargs st in
  let error_resolution := interpret_response (_error_handler self) (outcome_of answer) in
  let st :=
    if debug_enabled self && bool_decide (is_Some (response_of answer))
    then log_call DEBUG "Receiving response" st else st in
  _send_dispatch self request answer error_resolution st.

(** The state of the client when the chain starts: the attempt is counted
    and the transport was called once (see [_send_unfold]). *)
Definition attempt_state (self : HttpClient) (request : PreparedRequest)
    (request_kwargs : gmap string string) (st : ClientState) : ClientState :=
  let st0 :=
    log_call DEBUG "Making outbound API request"
      (set_attempts (count_attempt request (_request_attempt_count st)) st) in
  let st1 := called (session_duration (_session self) (sent st)) st0 in
  if debug_enabled self
     && bool_decide (is_Some (response_of
                                (session_send (_session self) (sent st) request request_kwargs)))
  then log_call DEBUG "Receiving response" st1 else st1.

(** ** The retry limits and the retry handlers: [_send_with_retry] *)

(** [for backoff_strategy in self._backoff_strategies: if hasattr(...) and
    ... is not None: x = ...; break], starting from the default. *)
Fixpoint first_exposed {A} (attr : BackoffStrategy → Attr A)
    (strategies : list BackoffStrategy) (dflt : A) : A :=
  match strategies with
  | [] => dflt
  | backoff_strategy :: rest =>
      match attr backoff_strategy with
      | Value v => v
      | _ => first_exposed attr rest dflt
      end
  end.

Definition max_retries_of (self : HttpClient) : Z :=
  match eh_max_retries (_error_handler self) with
  | Value v => v
  | _ => first_exposed bs_max_retries (_backoff_strategies self) _DEFAULT_MAX_RETRY
  end.

Definition max_tries_of (self : HttpClient) : Z := Z.max 0 (max_retries_of self) + 1.

Definition max_time_of (self : HttpClient) : Z :=
  match eh_max_time (_error_handler self) with
  | Value v => v
  | _ => first_exposed bs_max_time (_backoff_strategies self) _DEFAULT_MAX_TIME
  end.

Definition factor_of (self : HttpClient) : Q :=
  first_exposed bs_factor (_backoff_strategies self) _DEFAULT_RETRY_FACTOR.

(** Modelled from the spec: the wait of [http_client_default_backoff_handler]
    (module [rate_limiting], not among the sources); the exponential fallback
    [factor × 2^(attempt-1)]. *)
Definition exponential_backoff (factor : Q) (attempt : nat) : Q :=
  factor * inject_Z (2 ^ Z.of_nat (attempt - 1)).

(** Modelled from the spec: what the retry decorators of [rate_limiting] (not
    among the sources) read off a raised backoff signal: the delay (the one
    the strategy gave, or the exponential fallback), the outcome that caused
    it and the message of the retry action. *)
Definition retry_signal (factor : Q) (attempt : nat) (r : result (option Response))
    : option (Q * Outcome * string) :=
  match r with
  | Raised (UserDefinedBackoffException t _ outcome msg) => Some (t, outcome, msg)
  | Raised (DefaultBackoffException _ outcome msg) =>
      Some (exponential_backoff factor attempt, outcome, msg)
  | _ => None
  end.

(** Modelled from the spec: the error raised when the retry decorators (not
    among the sources) give up; the terminal error built as in FAIL, carrying
    the message of the retry action. *)
Definition terminal_error (self : HttpClient) (request : PreparedRequest)
    (outcome : Outcome) (msg : string) : Exn :=
  let internal :=
    match outcome with
    | GotResponse r => fail_message self request (Some r) None
    | GotException e => fail_message self request None (Some e)
    end in
  AirbyteTracedException internal msg TRANSIENT.

(** Modelled from the spec: the retry loop of section 4.1 as the spec words
    it, one loop for both signals that counts the attempts with the counter of
    the client.  On a RETRY signal, if the attempt count equals [max_tries] or
    the projected sleep would exceed what remains of [max_time], stop and raise
    the terminal error, built as in FAIL and carrying the retry action's
    message; otherwise sleep for the delay and attempt again.  Any other
    result of the attempt is the result of the call.  [fuel] bounds the number
    of attempts of the model; [retry_loop_total] shows that the loop never
    needs more than [max_tries] of it.  [_send_with_retry] below does not run
    this loop but two handlers, one inside the other; the two agree when
    every signal of the call is of one kind ([_send_with_retry_one_kind]). *)
Fixpoint retry_loop (fuel : nat) (self : HttpClient) (max_tries max_time : Z) (factor : Q)
    (started : Q) (request : PreparedRequest) (request_kwargs : gmap string string)
    (st : ClientState) : option (result (option Response) * ClientState) :=
  match fuel with
  | O => None
  | S fuel' =>
      let '(r, st1) := _send self request request_kwargs st in
      let attempt := attempt_count request st1 in
      match retry_signal factor attempt r with
      | None => Some (r, st1)
      | Some (delay, outcome, msg) =>
          let remaining := (inject_Z max_time - (now st1 - started))%Q in
          if (Z.of_nat attempt =? max_tries)%Z || negb (Qle_bool delay remaining)
          then Some (Raised (terminal_error self request outcome msg), st1)
          else retry_loop fuel' self max_tries max_time factor started
                 request request_kwargs (sleep delay st1)
      end
  end.

(** What a call of a wrapped function gives: nothing when the model ran out
    of fuel, else a result and the state of the client. *)
Definition Call : Type := ClientState → option (result (option Response) * ClientState).

(** Modelled from the spec: what [user_defined_backoff_handler] (module
    [rate_limiting], not among the sources) reads off the exception it
    handles, [UserDefinedBackoffException]: the delay the strategy gave, the
    outcome and the message of the retry action.  Every other result is not
    its business. *)
Definition user_defined_signal (tries : nat) (r : result (option Response))
    : option (Q * Outcome * string) :=
  match r with
  | Raised (UserDefinedBackoffException t _ outcome msg) => Some (t, outcome, msg)
  | _ => None
  end.

(** Modelled from the spec: what [http_client_default_backoff_handler]
    (module [rate_limiting], not among the sources) reads off the exception
    it handles, [DefaultBackoffException]: the exponential fallback for its
    own count of tries, the outcome and the message of the retry action. *)
Definition default_signal (factor : Q) (tries : nat) (r : result (option Response))
    : option (Q * Outcome * string) :=
  match r with
  | Raised (DefaultBackoffException _ outcome msg) =>
      Some (exponential_backoff factor tries, outcome, msg)
  | _ => None
  end.

(** Modelled from the spec: one retry handler of module [rate_limiting] (not
    among the sources) wrapped around a function [target].  The handler is
    given [max_tries] and [max_time] and nothing else of the client: it counts
    its own [tries], from 1, and measures the time from its own start.  It
    follows the rule of section 4.1 for the signal it handles: when the tries
    equal [max_tries] or the projected sleep would exceed what remains of
    [max_time], it stops and raises the terminal error, built as in FAIL and
    carrying the retry action's message; otherwise it sleeps for the delay
    and calls [target] again.  A result that is not its signal, an exception
    of another class included, is passed on. *)
Fixpoint on_exception (fuel : nat)
    (signal : nat → result (option Response) → option (Q * Outcome * string))
    (self : HttpClient) (request : PreparedRequest) (max_tries max_time : Z)
    (target : Call) (tries : nat) (started : Q) (st : ClientState)
    : option (result (option Response) * ClientState) :=
  match fuel with
  | O => None
  | S fuel' =>
      match target st with
      | None => None
      | Some (r, st1) =>
          match signal tries r with
          | None => Some (r, st1)
          | Some (delay, outcome, msg) =>
              let remaining := (inject_Z max_time - (now st1 - started))%Q in
              if (Z.of_nat tries =? max_tries)%Z || negb (Qle_bool delay remaining)
              then Some (Raised (terminal_error self request outcome msg), st1)
              else on_exception fuel' signal self request max_tries max_time target
                     (S tries) started (sleep delay st1)
          end
      end
  end.

(** [user_defined_backoff_handler(max_tries=..., max_time=...)(target)],
    called in state [st]: the handler of the delays given by the strategies,
    at its first try. *)
Definition user_defined_backoff_handler (fuel : nat) (self : HttpClient)
    (request : PreparedRequest) (max_tries max_time : Z) (target : Call) : Call :=
  λ st, on_exception fuel user_defined_signal self request max_tries max_time target
          1 (now st) st.

(** [http_client_default_backoff_handler(max_tries=..., max_time=...,
    factor=...)(target)], called in state [st]: the handler of the
    exponential fallback, at its first try. *)
Definition http_client_default_backoff_handler (fuel : nat) (self : HttpClient)
    (request : PreparedRequest) (max_tries max_time : Z) (factor : Q) (target : Call)
    : Call :=
  λ st, on_exception fuel (default_signal factor) self request max_tries max_time target
          1 (now st) st.

(** [_send_with_retry]: the limits are resolved once; [_send] is wrapped in
    the handler of the user-defined delays, and that one in the handler of the
    default backoff; both are given the same [max_tries] and [max_time].
    [fuel] bounds the calls each handler makes of what it wraps. *)
Definition _send_with_retry (fuel : nat) (self : HttpClient) (request : PreparedRequest)
    (request_kwargs : gmap string string) (st : ClientState)
    : option (result (option Response) * ClientState) :=
  let max_tries := max_tries_of self in
  let max_time := max_time_of self in
  let factor := factor_of self in
  let user_backoff_handler :=
    user_defined_backoff_handler fuel self request max_tries max_time
      (λ st, Some (_send self request request_kwargs st)) in
  let backoff_handler :=
    http_client_default_backoff_handler fuel self request max_tries max_time factor in
  backoff_handler user_backoff_handler st.

(** ** [send_request] *)

Definition send_request (fuel : nat) (self : HttpClient) (http_method url : string)
    (request_kwargs : gmap string string) (headers params : option (gmap string string))
    (json : option (gmap string string)) (data : option BodyData)
    (dedupe_query_params : bool) (st : ClientState)
    : option (result (PreparedRequest * option Response) * ClientState) :=
  match _create_prepared_request self http_method url dedupe_query_params headers params json
          data st with
  | (Raised e, st1) => Some (Raised e, st1)
  | (Returned request, st1) =>
      match _send_with_retry fuel self request request_kwargs st1 with
      | None => None
      | Some (Raised e, st2) => Some (Raised e, st2)
      | Some (Returned response, st2) => Some (Returned (request, response), st2)
      end
  end.

(** ** Well-formed states *)

(** Every counter belongs to a request that was created: the keys of the
    dictionary are identities of existing objects. *)
Definition wf_state (st : ClientState) : Prop :=
  ∀ k, is_Some (_request_attempt_count st !! k) → (k < allocated st)%nat.

(** What attempts of [request] leave behind, between the states [st] and
    [st']: the transport was called, the counter of the request grew by the
    number of these calls, and nothing else was written in the dictionary;
    no object was created. *)
Definition attempts_made (request : PreparedRequest) (st st' : ClientState) : Prop :=
  (sent st < sent st')%nat
  ∧ _request_attempt_count st'
    = <[req_id request := (attempt_count request st + (sent st' - sent st))%nat]>
        (_request_attempt_count st)
  ∧ allocated st' = allocated st.

(** The strategies of a client signal in one way only: they never give a
    true delay, or they give one for every outcome and attempt. *)
Definition one_kind_of_signal (self : HttpClient) : Prop :=
  (∀ outcome attempt,
     custom_backoff_time (_backoff_strategies self) outcome attempt = None)
  ∨ (∀ outcome attempt,
       custom_backoff_time (_backoff_strategies self) outcome attempt ≠ None).

(** The dictionary holds a counter for every request created so far, and for
    nothing else. *)
Definition tracked (st : ClientState) : Prop :=
  ∀ k, is_Some (_request_attempt_count st !! k) ↔ (k < allocated st)%nat.

(** ** The precedence of the limits, in the words of the specification *)

(** The first strategy, in declared order, that exposes an override. *)
Definition spec_first_override {A} (attr : BackoffStrategy → Attr A)
    (strategies : list BackoffStrategy) : option A :=
  head (omap (λ s, exposed (attr s)) strategies).

(** The override of the error handler if present, else that of the first
    strategy exposing one, else the default. *)
Definition spec_limit {A} (handler : Attr A) (attr : BackoffStrategy → Attr A)
    (strategies : list BackoffStrategy) (dflt : A) : A :=
  default (default dflt (spec_first_override attr strategies)) (exposed handler).

(** ** A zero delay read as no delay *)

(** The answer of a strategy in which zero is replaced by [None]. *)
Definition zero_as_none (t : option Q) : option Q :=
  match t with
  | Some q => if (Qnum q =? 0)%Z then None else Some q
  | None => None
  end.

(** The strategy that answers [None] wherever [s] answers zero. *)
Definition declining_on_zero (s : BackoffStrategy) : BackoffStrategy :=
  {| backoff_time := λ outcome attempt, zero_as_none (backoff_time s outcome attempt);
     bs_max_retries := bs_max_retries s;
     bs_max_time := bs_max_time s;
     bs_factor := bs_factor s |}.

(** The same client with other strategies. *)
Definition with_strategies (self : HttpClient) (strategies : list BackoffStrategy)
    : HttpClient :=
  {| _error_handler := _error_handler self;
     _backoff_strategies := strategies;
     _error_message_parser := _error_message_parser self;
     _session := _session self;
     debug_enabled := debug_enabled self |}.

(** ** Configurations used in the examples *)

Definition resolution (a : ResponseAction) : ErrorResolution :=
  {| response_action := a; failure_type := SYSTEM; error_message := None |}.

(** A handler giving every outcome the same action. *)
Definition constant_handler (a : ResponseAction) (retries : Attr Z) : ErrorHandler :=
  {| interpret_response := λ _, resolution a;
     eh_max_retries := retries;
     eh_max_time := Absent |}.

(** A strategy without overrides. *)
Definition plain_strategy (f : Outcome → nat → option Q) : BackoffStrategy :=
  {| backoff_time := f; bs_max_retries := Absent; bs_max_time := Absent;
     bs_factor := Absent |}.

(** A way of preparing a URL, for the examples: the parameters are appended
    to the query as [k=v] joined by [&], after [?] (after [&] when the URL has
    a query already); without parameters the URL is left as it is.  This is
    the merge [requests] makes of plain keys and values into a URL that has a
    path and no fragment, as the URLs of the examples. *)
Definition example_prepare_url (url : string) (params : gmap string string) : string :=
  match map_to_list params with
  | [] => url
  | kvs =>
      url +:+ (if bool_decide (Url.query url = "") then "?" else "&")
      +:+ String.concat "&" ((λ kv : string * string, kv.1 +:+ "=" +:+ kv.2) <$> kvs)
  end.

(** A client whose session gives the same answer to every call, at once. *)
Definition example_client (handler : ErrorHandler) (strategies : list BackoffStrategy)
    (answer : Response + RequestException) : HttpClient :=
  {| _error_handler := handler;
     _backoff_strategies := strategies;
     _error_message_parser := λ r, Some (text r);
     _session := {| session_send := λ _ _ _, answer; session_duration := λ _, 0%Q;
                    session_prepare_url := example_prepare_url |};
     debug_enabled := false |}.


(** Two strategies: the first asks for zero seconds, the second has no
    opinion. *)
Definition zero_delay_client : HttpClient :=
  example_client (constant_handler RETRY Absent)
    [plain_strategy (λ _ _, Some 0%Q); plain_strategy (λ _ _, None)]
    (inl {| status_code := 429; text := "slow down" |}).

(** Two strategies: the first asks for zero seconds, the second for 10. *)
Definition zero_then_ten_client : HttpClient :=
  example_client (constant_handler RETRY Absent)
    [plain_strategy (λ _ _, Some 0%Q); plain_strategy (λ _ _, Some 10%Q)]
    (inl {| status_code := 429; text := "slow down" |}).

(** Four strategies: zero seconds, no opinion, 10 seconds, 20 seconds. *)
Definition zero_none_ten_twenty_client : HttpClient :=
  example_client (constant_handler RETRY Absent)
    [plain_strategy (λ _ _, Some 0%Q); plain_strategy (λ _ _, None);
     plain_strategy (λ _ _, Some 10%Q); plain_strategy (λ _ _, Some 20%Q)]
    (inl {| status_code := 429; text := "slow down" |}).

(** Every answer is to be retried, at most twice; the one strategy asks for
    one second, except at every third attempt of a request, where it has no
    opinion. *)
Definition every_third_client : HttpClient :=
  example_client (constant_handler RETRY (Value 2%Z))
    [plain_strategy (λ _ attempt, if (attempt mod 3 =? 0)%nat then None else Some 1%Q)]
    (inl {| status_code := 500; text := "busy" |}).

(** A handler that ignores every outcome, facing a 404. *)
Definition ignoring_client : HttpClient :=
  example_client (constant_handler IGNORE Absent) []
    (inl {| status_code := 404; text := "not found" |}).

(** A handler that fails every outcome, facing a 404 whose body the parser
    can read. *)
Definition failing_client : HttpClient :=
  example_client (constant_handler FAIL Absent) []
    (inl {| status_code := 404; text := "not found" |}).

Definition example_request : PreparedRequest :=
  prepare_request (_session failing_client) 0
    {| arg_method := "GET"; arg_url := "http://x/"; arg_headers := None;
       arg_params := ∅; arg_json := None; arg_data := None |}.

Definition response_200 : Response := {| status_code := 200; text := "{}" |}.
Definition response_404 : Response := {| status_code := 404; text := "not found" |}.
Definition response_500 : Response := {| status_code := 500; text := "busy" |}.
Definition timeout_error : RequestException := {| exc_text := "timed out" |}.


(** * The Mixpanel streams

    A shallow embedding of [source_mixpanel/streams/base.py].  A JSON document
    is a [json]; a dictionary whose order matters is an association list with
    distinct keys ([Dict]); a call returns a value or raises ([py]); a
    generator is the list of what it yields and the exception that ended it,
    if any.  A [date] is its proleptic Gregorian ordinal. *)

(** ** Python values and exceptions *)

#[local] Set Warnings "-register-all".

Inductive json :=
| JNull
| JBool (b : bool)
| JNum (q : Q)
| JStr (s : string)
| JList (l : list json)
| JDict (d : list (string * json)).

Inductive PyError :=
| KeyError (key : string)
| TypeError
| AttributeError
| ValueError
| OverflowError
| UnboundLocalError.

Inductive py (A : Type) :=
| Ret (a : A)
| Exc (e : PyError).
Arguments Ret {A} a.
Arguments Exc {A} e.

#[global] Instance py_ret : MRet py := λ A a, Ret a.

#[global] Instance py_bind : MBind py := λ A B f m,
  match m with
  | Ret a => f a
  | Exc e => Exc e
  end.

#[global] Instance py_fmap : FMap py := λ A B f m,
  match m with
  | Ret a => Ret (f a)
  | Exc e => Exc e
  end.

(** Insertion-ordered dictionaries with string keys. *)
Module Dict.

Fixpoint get (k : string) (d : list (string * json)) : option json :=
  match d with
  | [] => None
  | (k', v) :: rest => if String.eqb k k' then Some v else get k rest
  end.

(** [d[k]]. *)
Definition getitem (d : list (string * json)) (k : string) : py json :=
  match get k d with
  | Some v => Ret v
  | None => Exc (KeyError k)
  end.

(** [d[k] = v]: an existing key keeps its place, a new one goes last. *)
Fixpoint set (k : string) (v : json) (d : list (string * json)) : list (string * json) :=
  match d with
  | [] => [(k, v)]
  | (k', v') :: rest =>
      if String.eqb k k' then (k, v) :: rest else (k', v') :: set k v rest
  end.

(** [d.update(other)]. *)
Definition update (d other : list (string * json)) : list (string * json) :=
  foldl (λ acc kv, set kv.1 kv.2 acc) d other.

Definition keys (d : list (string * json)) : list string := map fst d.

End Dict.

(** Truth value of a dictionary and of a list. *)
Definition truthy_list {A} (l : list A) : bool :=
  match l with
  | [] => false
  | _ => true
  end.

(** The one-character strings of a string. *)
Fixpoint chars (s : string) : list string :=
  match s with
  | EmptyString => []
  | String c s' => String c EmptyString :: chars s'
  end.

(** [for record in data]: what iterating over a value gives. *)
Definition iterate (data : json) : py (list json) :=
  match data with
  | JList l => Ret l
  | JDict d => Ret (map JStr (Dict.keys d))
  | JStr s => Ret (map JStr (chars s))
  | _ => Exc TypeError
  end.

(** [max(a, b)] on strings: [b] when [b > a], else [a]. *)
Definition str_gt (a b : string) : bool :=
  match OrdersEx.String_as_OT.compare a b with
  | Gt => true
  | _ => false
  end.

Definition str_max (a b : string) : string := if str_gt b a then b else a.

(** ** Dates *)

Module Date.

(** [date.max.toordinal()]; [date.min] has ordinal 1. *)
Definition MAXORDINAL : Z := 3652059.

(** [timedelta(days=n)]. *)
Definition timedelta (days : Z) : py Z :=
  if (Z.abs days <=? 999999999)%Z then Ret days else Exc OverflowError.

(** [d + delta]. *)
Definition add (d delta : Z) : py Z :=
  if (1 <=? d + delta)%Z && (d + delta <=? MAXORDINAL)%Z then Ret (d + delta)%Z
  else Exc OverflowError.

(** [s.zfill(width)] for the decimal text of a natural number. *)
Definition zfill (width : nat) (s : string) : string :=
  String.concat "" (replicate (width - String.length s) "0") +:+ s.

(** Year, month and day of an ordinal. *)
Definition ymd (ordinal : Z) : Z * Z * Z :=
  let z := (ordinal + 305)%Z in
  let era := (z / 146097)%Z in
  let doe := (z mod 146097)%Z in
  let yoe := ((doe - doe / 1460 + doe / 36524 - doe / 146096) / 365)%Z in
  let doy := (doe - (365 * yoe + yoe / 4 - yoe / 100))%Z in
  let mp := ((5 * doy + 2) / 153)%Z in
  let day := (doy - (153 * mp + 2) / 5 + 1)%Z in
  let month := (if (mp <? 10)%Z then mp + 3 else mp - 9)%Z in
  let year := (yoe + era * 400 + (if (month <=? 2)%Z then 1 else 0))%Z in
  (year, month, day).

(** [str(d)]: the ISO form [YYYY-MM-DD]. *)
Definition isoformat (ordinal : Z) : string :=
  let '(year, month, day) := ymd ordinal in
  zfill 4 (pretty year) +:+ "-" +:+ zfill 2 (pretty month) +:+ "-" +:+ zfill 2 (pretty day).

End Date.

(** ** The streams *)

Module Mixpanel.

(** The attributes of a [MixpanelStream]: those set by [__init__], and the
    class attributes that the concrete streams define. *)
Record Stream := {
  region : string;
  start_date : Z;
  end_date : Z;
  date_window_size : Z;
  attribution_window : Z;
  additional_properties : bool;
  projects : option (list (list (string * json)));
  reqs_per_hour_limit : Z;
  data_field : option string;
  cursor_field : string;
}.

(** [[{'project_id': item['id']} for item in projects]]. *)
Fixpoint project_slices_of (items : list (list (string * json)))
    : py (list (list (string * json))) :=
  match items with
  | [] => Ret []
  | item :: rest =>
      id ← Dict.getitem item "id";
      slices ← project_slices_of rest;
      Ret ([("project_id", id)] :: slices)
  end.

(** [MixpanelStream.__init__]. *)
Definition __init__ (region : option string) (start_date end_date : Z)
    (date_window_size attribution_window : Z) (select_properties_by_default : bool)
    (projects : option (list (list (string * json))))
    (reqs_per_hour_limit : Z) (data_field : option string) (cursor_field : string)
    : py Stream :=
  projects ← (match projects with
              | Some (item :: rest) => Some <$> project_slices_of (item :: rest)
              | _ => Ret None
              end);
  Ret {| region := (match region with
                    | Some (String c r) => String c r
                    | _ => "US"
                    end);
         start_date := start_date;
         end_date := end_date;
         date_window_size := date_window_size;
         attribution_window := attribution_window;
         additional_properties := select_properties_by_default;
         projects := projects;
         reqs_per_hour_limit := reqs_per_hour_limit;
         data_field := data_field;
         cursor_field := cursor_field |}.

(** [MixpanelStream.url_base]. *)
Definition url_base (self : Stream) : string :=
  let prefix := if String.eqb (region self) "EU" then "eu." else "" in
  "https://" +:+ prefix +:+ "mixpanel.com/api/2.0/".

(** [MixpanelStream.process_response], on the document [response.json()]
    gave: the records yielded, and the exception that ended the generator. *)
Definition process_response (self : Stream) (json_response : json)
    : list json * option PyError :=
  let data :=
    match data_field self with
    | Some field =>
        match json_response with
        | JDict d => Ret (default (JList []) (Dict.get field d))
        | _ => Exc AttributeError
        end
    | None =>
        match json_response with
        | JList _ => Ret json_response
        | JDict _ => Ret (JList [json_response])
        | _ => Exc UnboundLocalError
        end
    end in
  match data ≫= iterate with
  | Ret records => (records, None)
  | Exc e => ([], Some e)
  end.

(** [MixpanelStream.parse_response]: the generator, and the seconds slept
    once everything was yielded. *)
Definition parse_response (self : Stream) (json_response : json)
    : (list json * option PyError) * option Q :=
  let '(records, error) := process_response self json_response in
  match error with
  | Some e => ((records, Some e), None)
  | None =>
      if (0 <? reqs_per_hour_limit self)%Z
      then ((records, None), Some (3600 / inject_Z (reqs_per_hour_limit self))%Q)
      else ((records, None), None)
  end.

Module Projects.

(** The loop over [projects.items()]. *)
Fixpoint with_ids (items : list (string * json)) : list json * option PyError :=
  match items with
  | [] => ([], None)
  | (project_id, project_info) :: rest =>
      match project_info with
      | JDict info =>
          let '(records, error) := with_ids rest in
          (JDict (Dict.set "id" (JStr project_id) info) :: records, error)
      | _ => ([], Some TypeError)
      end
  end.

(** [x.get(key, {})] where [x] must be a dictionary. *)
Definition get_or_empty (key : string) (x : json) : py json :=
  match x with
  | JDict d => Ret (default (JDict []) (Dict.get key d))
  | _ => Exc AttributeError
  end.

(** [Projects.parse_response]. *)
Definition parse_response (json_response : json) : list json * option PyError :=
  match get_or_empty "results" json_response ≫= get_or_empty "projects" with
  | Ret (JDict items) => with_ids items
  | Ret _ => ([], Some AttributeError)
  | Exc e => ([], Some e)
  end.

End Projects.

Module ProjectSlicesMixin.

(** [stream_slices]: the projects, or the single slice [None]. *)
Definition stream_slices (self : Stream) : list (option (list (string * json))) :=
  match projects self with
  | Some (p :: rest) => Some <$> (p :: rest)
  | _ => [None]
  end.

(** [request_params]. *)
Definition request_params (stream_slice : option (list (string * json)))
    : list (string * json) :=
  match stream_slice with
  | Some d =>
      match Dict.get "project_id" d with
      | Some id => [("project_id", id)]
      | None => []
      end
  | None => []
  end.

End ProjectSlicesMixin.

Module DateSlicesMixin.

Section WithParser.

(** [datetime.fromisoformat(s).date()]: the date a text denotes, or
    [ValueError]; which texts are accepted depends on the version of
    Python. *)
Variable fromisoformat_date : string → py Z.

Definition slice_of (start_date end_date : Z) : list (string * json) :=
  [("start_date", JStr (Date.isoformat start_date));
   ("end_date", JStr (Date.isoformat end_date))].

(** The [while] loop of [date_slices]. *)
Fixpoint slices_loop (fuel : nat) (self : Stream) (start_date : Z)
    (date_slices : list (list (string * json)))
    : option (py (list (list (string * json)))) :=
  match fuel with
  | O => None
  | S fuel' =>
      if (start_date <=? end_date self)%Z then
        match Date.timedelta (date_window_size self - 1) ≫= Date.add start_date with
        | Exc e => Some (Exc e)
        | Ret end_date_ =>
            let date_slices :=
              (date_slices ++ [slice_of start_date (Z.min end_date_ (end_date self))])%list in
            match Date.timedelta 1 ≫= Date.add end_date_ with
            | Exc e => Some (Exc e)
            | Ret next => slices_loop fuel' self next date_slices
            end
        end
      else Some (Ret date_slices)
  end.

(** The date of the state: [stream_state["date"]] parsed, when the state is
    not empty. *)
Definition state_date (stream_state : option (gmap string string)) : py (option Z) :=
  match stream_state with
  | None => Ret None
  | Some state =>
      if bool_decide (state = ∅) then Ret None
      else match state !! "date" with
           | Some text => Some <$> fromisoformat_date text
           | None => Exc (KeyError "date")
           end
  end.

(** [date_slices]. *)
Definition date_slices (fuel : nat) (self : Stream)
    (stream_state : option (gmap string string))
    : option (py (list (list (string * json)))) :=
  match state_date stream_state with
  | Exc e => Some (Exc e)
  | Ret stream_state_date =>
      let start :=
        match stream_state_date with
        | Some d => Z.max (start_date self) d
        | None => start_date self
        end in
      let start := Z.min start (end_date self) in
      match Date.timedelta (attribution_window self) ≫= (λ days, Date.add start (- days)) with
      | Exc e => Some (Exc e)
      | Ret start => slices_loop fuel self start []
      end
  end.

(** The inner loop of [stream_slices] for the dictionary [date_slice], which
    is the object number [ref]: each round may update the object, then
    yields it.  The result is what was yielded, each time with the content
    the object had at that moment, and the content it has in the end. *)
Fixpoint yield_per_project (ref : nat) (date_slice : list (string * json))
    (project_slices : list (option (list (string * json))))
    : list (nat * list (string * json)) * list (string * json) :=
  match project_slices with
  | [] => ([], date_slice)
  | project_slice :: rest =>
      let date_slice :=
        match project_slice with
        | Some (kv :: more) => Dict.update date_slice (kv :: more)
        | _ => date_slice
        end in
      let '(yielded, final) := yield_per_project ref date_slice rest in
      ((ref, date_slice) :: yielded, final)
  end.

(** The outer loop: the objects are numbered in the order of [date_slices];
    the second component is the heap, the final content of each object. *)
Fixpoint yield_all (ref : nat) (date_slices : list (list (string * json)))
    (project_slices : list (option (list (string * json))))
    : list (nat * list (string * json)) * list (list (string * json)) :=
  match date_slices with
  | [] => ([], [])
  | date_slice :: rest =>
      let '(yielded, final) := yield_per_project ref date_slice project_slices in
      let '(yielded', heap) := yield_all (S ref) rest project_slices in
      ((yielded ++ yielded')%list, final :: heap)
  end.

(** [stream_slices]. *)
Definition stream_slices (fuel : nat) (self : Stream)
    (stream_state : option (gmap string string))
    : option (py (list (nat * list (string * json)) * list (list (string * json)))) :=
  let project_slices := ProjectSlicesMixin.stream_slices self in
  match date_slices fuel self stream_state with
  | None => None
  | Some (Exc e) => Some (Exc e)
  | Some (Ret slices) => Some (Ret (yield_all 0 slices project_slices))
  end.

End WithParser.

(** [request_params]. *)
Definition request_params (stream_slice : option (list (string * json)))
    : py (list (string * json)) :=
  let params := ProjectSlicesMixin.request_params stream_slice in
  match stream_slice with
  | None => Exc TypeError
  | Some d =>
      from_date ← Dict.getitem d "start_date";
      to_date ← Dict.getitem d "end_date";
      Ret (Dict.update [("from_date", from_date); ("to_date", to_date)] params)
  end.

End DateSlicesMixin.

Module IncrementalMixpanelStream.

(** [get_updated_state], for a state and a record whose values are texts. *)
Definition get_updated_state (self : Stream)
    (current_stream_state : option (gmap string string))
    (latest_record : gmap string string) : gmap string string :=
  let current_stream_state := default ∅ current_stream_state in
  let current := default (Date.isoformat (start_date self)) (current_stream_state !! "date") in
  let latest_record_date :=
    default (Date.isoformat (start_date self)) (latest_record !! cursor_field self) in
  {[ "date" := str_max current latest_record_date ]}.

End IncrementalMixpanelStream.

End Mixpanel.


(** * Reading the state of a source ([airbyte_cdk/sources/source.py]) *)

Module Source.

(** Truth value of a JSON document. *)
Definition truthy (doc : json) : bool :=
  match doc with
  | JNull => false
  | JBool b => b
  | JNum q => negb (Qnum q =? 0)%Z
  | JStr s => Py.truthy_str s
  | JList l => truthy_list l
  | JDict d => truthy_list d
  end.

Inductive AirbyteStateType := LEGACY | STREAM | GLOBAL.

(** An [AirbyteStateMessage] (module [airbyte_cdk.models], not among the
    sources): the fields [read_state] reads or writes.  [stream] and
    [global_] are objects, [data] is a dictionary. *)
Record AirbyteStateMessage := {
  type_ : option AirbyteStateType;
  stream : option json;
  global_ : option json;
  data : option (list (string * json));
}.

(** What [read_state] returns: a list of messages, or the mapping
    [defaultdict(dict, state_obj)]. *)
Inductive State :=
| Messages (messages : list AirbyteStateMessage)
| Mapping (state_obj : list (string * json)).

Section WithCollaborators.

(** [BaseConnector._read_json_file] and [AirbyteStateMessage.model_validate]
    are not among the sources; [overrides_read] tells whether the class
    defines [read] itself ([read] in [vars(cls)]). *)
Variable _read_json_file : string → py json.
Variable model_validate : json → py AirbyteStateMessage.
Variable overrides_read : bool.

(** [_emit_legacy_state_format]. *)
Definition _emit_legacy_state_format (state_obj : list (string * json)) : State :=
  if overrides_read then Mapping state_obj
  else if truthy_list state_obj
       then Messages [{| type_ := Some LEGACY; stream := None; global_ := None;
                         data := Some state_obj |}]
       else Messages [].

(** The last branch of [read_state], which takes the document for a
    dictionary, when it is none: [defaultdict(dict, x)] and the constructor of
    the message both refuse it. *)
Definition emit_legacy_of (state_obj : json) : py State :=
  match state_obj with
  | JDict d => Ret (_emit_legacy_state_format d)
  | JStr _ => Exc ValueError
  | _ => if overrides_read then Exc TypeError else Exc ValueError
  end.

(** Neither [stream], nor [data], nor [global_]. *)
Definition is_blank (m : AirbyteStateMessage) : bool :=
  negb (bool_decide (is_Some (stream m)))
  && negb (match data m with Some d => truthy_list d | None => false end)
  && negb (bool_decide (is_Some (global_ m))).

(** The loop over the list of states. *)
Fixpoint parse_messages (state_obj : list json) (parsed_state_messages : list AirbyteStateMessage)
    : py (list AirbyteStateMessage) :=
  match state_obj with
  | [] => Ret parsed_state_messages
  | state :: rest =>
      parsed_message ← model_validate state;
      if is_blank parsed_message then Exc ValueError
      else parse_messages rest (parsed_state_messages ++ [parsed_message])%list
  end.

(** [read_state]. *)
Definition read_state (state_path : string) : py State :=
  if Py.truthy_str state_path then
    state_obj ← _read_json_file state_path;
    if negb (truthy state_obj) then Ret (_emit_legacy_state_format [])
    else match state_obj with
         | JList l => Messages <$> parse_messages l []
         | _ => emit_legacy_of state_obj
         end
  else Ret (_emit_legacy_state_format []).

End WithCollaborators.

End Source.

(** ** What [date_slices] is expected to give *)

(** The first day of the first slice: the later of the start date and the
    date of the state, not after the end date, moved back by the attribution
    window. *)
Definition first_day (self : Mixpanel.Stream) (stream_state_date : option Z) : Z :=
  (Z.min (match stream_state_date with
          | Some d => Z.max (Mixpanel.start_date self) d
          | None => Mixpanel.start_date self
          end) (Mixpanel.end_date self)
   - Mixpanel.attribution_window self)%Z.

(** Windows of [size] days from [first], the last one cut at [last]: window
    number [i] starts on day [first + i × size]. *)
Definition expected_windows (first last size : Z) : list (Z * Z) :=
  (λ i, (first + i * size, Z.min (first + i * size + size - 1) last)%Z)
    <$> seqZ 0 ((last - first + size) / size).

(** ** A stream used in the examples *)

(** Texts accepted in the examples: the first of January 2020 and the tenth. *)
Definition example_fromisoformat_date (text : string) : py Z :=
  if String.eqb text "2020-01-01" then Ret 737425%Z
  else if String.eqb text "2020-01-10" then Ret 737434%Z
  else Exc ValueError.

(** From 2020-01-01 to 2020-03-11 in windows of 30 days, looking 5 days
    back, for two projects. *)
Definition example_stream : Mixpanel.Stream :=
  {| Mixpanel.region := "US";
     Mixpanel.start_date := 737425;
     Mixpanel.end_date := 737495;
     Mixpanel.date_window_size := 30;
     Mixpanel.attribution_window := 5;
     Mixpanel.additional_properties := true;
     Mixpanel.projects := Some [[("project_id", JStr "p1")]; [("project_id", JStr "p2")]];
     Mixpanel.reqs_per_hour_limit := 60;
     Mixpanel.data_field := None;
     Mixpanel.cursor_field := "date" |}.

(** The same period with a window of zero days, no attribution window and no
    projects. *)
Definition zero_window_stream : Mixpanel.Stream :=
  {| Mixpanel.region := "US";
     Mixpanel.start_date := 737425;
     Mixpanel.end_date := 737495;
     Mixpanel.date_window_size := 0;
     Mixpanel.attribution_window := 0;
     Mixpanel.additional_properties := true;
     Mixpanel.projects := None;
     Mixpanel.reqs_per_hour_limit := 0;
     Mixpanel.data_field := None;
     Mixpanel.cursor_field := "date" |}.

(** A document as [Projects] receives it: two projects, the first of which
    has an [id] of its own. *)
Definition example_projects_document : json :=
  JDict [("results",
          JDict [("projects",
                  JDict [("12", JDict [("name", JStr "a"); ("id", JNum 5)]);
                         ("13", JDict [])])])].

(** * Properties *)

(** ** What one attempt does to the state *)

Section Attempt.

Variables (self : HttpClient) (request : PreparedRequest)
          (request_kwargs : gmap string string) (st : ClientState).

Lemma _send_unfold :
  _send self request request_kwargs st
  = let answer := session_send (_session self) (sent st) request request_kwargs in
    _send_dispatch self request answer
      (interpret_response (_error_handler self) (outcome_of answer))
      (attempt_state self request request_kwargs st).
Proof. reflexivity. Qed.

Lemma attempt_state_fields :
  let st1 := attempt_state self request request_kwargs st in
  sent st1 = S (sent st)
  ∧ _request_attempt_count st1 = count_attempt request (_request_attempt_count st)
  ∧ allocated st1 = allocated st.
Proof. unfold attempt_state; cbn zeta. by destruct (_ && _). Qed.

(** The dispatch may log; it changes nothing else. *)
Lemma _send_dispatch_fields answer res st0 :
  let st1 := (_send_dispatch self request answer res st0).2 in
  sent st1 = sent st0
  ∧ _request_attempt_count st1 = _request_attempt_count st0
  ∧ allocated st1 = allocated st0.
Proof.
  unfold _send_dispatch; cbn zeta.
  destruct (response_action res); cbn;
    repeat match goal with
           | |- context [if ?b then _ else _] => destruct b; cbn
           | |- context [match ?o with Some _ => _ | None => _ end] => destruct o; cbn
           end; auto.
Qed.

Lemma _send_state :
  let st1 := (_send self request request_kwargs st).2 in
  sent st1 = S (sent st)
  ∧ _request_attempt_count st1 = count_attempt request (_request_attempt_count st)
  ∧ allocated st1 = allocated st.
Proof.
  rewrite _send_unfold; cbn zeta.
  destruct (_send_dispatch_fields
              (session_send (_session self) (sent st) request request_kwargs)
              (interpret_response (_error_handler self)
                 (outcome_of (session_send (_session self) (sent st) request request_kwargs)))
              (attempt_state self request request_kwargs st)) as (-> & -> & ->).
  apply attempt_state_fields.
Qed.

Lemma attempt_count_send :
  attempt_count request (_send self request request_kwargs st).2
  = S (attempt_count request st).
Proof.
  unfold attempt_count.
  destruct _send_state as (_ & -> & _).
  unfold count_attempt.
  destruct (_request_attempt_count st !! req_id request) as [n|] eqn:E;
    by rewrite lookup_insert_eq.
Qed.

Lemma count_attempt_insert :
  count_attempt request (_request_attempt_count st)
  = <[req_id request := S (attempt_count request st)]> (_request_attempt_count st).
Proof.
  unfold count_attempt, attempt_count.
  by destruct (_request_attempt_count st !! req_id request).
Qed.

End Attempt.

(** ** The retry loop of section 4.1 *)

Section RetryLoop.

Variables (self : HttpClient) (max_tries max_time : Z) (factor started : Q)
          (request : PreparedRequest) (request_kwargs : gmap string string).

Local Abbreviation loop fuel st :=
  (retry_loop fuel self max_tries max_time factor started request request_kwargs st).

(** Sleeping changes the clock only. *)
Lemma attempt_count_sleep d st :
  attempt_count request (sleep d st) = attempt_count request st.
Proof. reflexivity. Qed.

(** While the counter of the request is below [max_tries], the loop ends
    within the attempts that are left, each attempt is one call of the
    transport, and only the counter of this request is written. *)
Lemma retry_loop_total fuel : ∀ st,
  (Z.of_nat (attempt_count request st) < max_tries)%Z →
  (Z.to_nat max_tries - attempt_count request st ≤ fuel)%nat →
  ∃ r st',
    loop fuel st = Some (r, st')
    ∧ (sent st < sent st')%nat
    ∧ (attempt_count request st' = attempt_count request st + (sent st' - sent st))%nat
    ∧ (Z.of_nat (attempt_count request st') ≤ max_tries)%Z
    ∧ _request_attempt_count st'
      = <[req_id request := attempt_count request st']> (_request_attempt_count st)
    ∧ allocated st' = allocated st.
Proof.
  induction fuel as [|fuel IH]; intros st Hlt Hfuel; [lia|].
  pose proof (_send_state self request request_kwargs st) as (Hsent & Hmap & Halloc).
  pose proof (attempt_count_send self request request_kwargs st) as Hcount.
  cbn [retry_loop].
  destruct (_send self request request_kwargs st) as [r st1]; cbn [snd] in *.
  assert (Hmap1 : _request_attempt_count st1
                  = <[req_id request := attempt_count request st1]> (_request_attempt_count st)).
  { rewrite Hmap, Hcount. apply count_attempt_insert. }
  destruct (retry_signal factor (attempt_count request st1) r) as [[[delay outcome] msg]|].
  - destruct (Z.eqb_spec (Z.of_nat (attempt_count request st1)) max_tries) as [Heq|Hne];
      cbn [orb].
    + eexists _, st1. repeat split; eauto; lia.
    + destruct (negb (Qle_bool delay _)).
      * eexists _, st1. repeat split; eauto; lia.
      * destruct (IH (sleep delay st1)) as (r' & st' & Hloop & H1 & H2 & H3 & H4 & H5).
        { rewrite attempt_count_sleep. lia. }
        { rewrite attempt_count_sleep. lia. }
        rewrite attempt_count_sleep in H2. cbn [sleep sent _request_attempt_count allocated] in *.
        exists r', st'. repeat split; auto; try lia.
        rewrite H4, Hmap1. apply insert_insert_eq.
  - eexists r, st1. repeat split; eauto; lia.
Qed.

(** More fuel does not change a result. *)
Lemma retry_loop_more_fuel fuel : ∀ st x extra,
  loop fuel st = Some x → loop (fuel + extra) st = Some x.
Proof.
  induction fuel as [|fuel IH]; intros st x extra; [discriminate|].
  cbn [retry_loop Nat.add].
  destruct (_send self request request_kwargs st) as [r st1].
  destruct (retry_signal _ _ _) as [[[delay outcome] msg]|]; [|done].
  destruct (_ || _); [done|]. apply IH.
Qed.

End RetryLoop.

(** ** The choice of the delay *)

Section Backoff.

Variables (outcome : Outcome) (attempt : nat).

Local Abbreviation declines s := (Py.truthy_num (backoff_time s outcome attempt) = false).

(** Strategies that decline are passed over. *)
Lemma custom_backoff_time_skip before rest :
  (∀ b, b ∈ before → declines b) →
  custom_backoff_time (before ++ rest)%list outcome attempt
  = custom_backoff_time rest outcome attempt.
Proof.
  induction before as [|b before IH]; intros Hall; [done|].
  cbn. rewrite (Hall b) by set_solver. apply IH. intros; apply Hall; set_solver.
Qed.

Lemma custom_backoff_time_none strategies :
  (∀ b, b ∈ strategies → declines b) →
  custom_backoff_time strategies outcome attempt = None.
Proof.
  intros Hall. rewrite <- (app_nil_r strategies). by rewrite custom_backoff_time_skip.
Qed.

Lemma custom_backoff_time_first before s after d :
  (∀ b, b ∈ before → declines b) →
  backoff_time s outcome attempt = Some d →
  Py.truthy_num (Some d) = true →
  custom_backoff_time (before ++ s :: after)%list outcome attempt = Some d.
Proof.
  intros Hall Hs Hd. rewrite custom_backoff_time_skip by done.
  cbn [custom_backoff_time]. by rewrite Hs, Hd.
Qed.

(** What the loop keeps is a true delay, so the later test
    [if custom_backoff_time:] succeeds. *)
Lemma custom_backoff_time_truthy strategies d :
  custom_backoff_time strategies outcome attempt = Some d →
  Py.truthy_num (Some d) = true.
Proof.
  induction strategies as [|s rest IH]; [done|].
  cbn [custom_backoff_time].
  destruct (Py.truthy_num (backoff_time s outcome attempt)) eqn:E; [|done].
  intros Hs. by rewrite Hs in E.
Qed.

End Backoff.

(** ** The retry handlers *)

Lemma max_tries_pos self : (1 ≤ max_tries_of self)%Z.
Proof. unfold max_tries_of. lia. Qed.

Lemma attempts_made_send self request request_kwargs st :
  attempts_made request st (_send self request request_kwargs st).2.
Proof.
  destruct (_send_state self request request_kwargs st) as (Hsent & Hmap & Halloc).
  repeat split; [lia | | done].
  rewrite Hmap, Hsent, count_attempt_insert. f_equal. lia.
Qed.

Lemma attempts_made_count request st st' :
  attempts_made request st st' →
  attempt_count request st' = (attempt_count request st + (sent st' - sent st))%nat.
Proof.
  intros (_ & Hmap & _). unfold attempt_count at 1. by rewrite Hmap, lookup_insert_eq.
Qed.

(** Attempts, a sleep, and attempts again. *)
Lemma attempts_made_sleep request d st st1 st2 :
  attempts_made request st st1 →
  attempts_made request (sleep d st1) st2 →
  attempts_made request st st2.
Proof.
  intros H1 H2. pose proof (attempts_made_count _ _ _ H1) as Hcount.
  destruct H1 as (Hsent1 & Hmap1 & Halloc1), H2 as (Hsent2 & Hmap2 & Halloc2).
  change (attempt_count request (sleep d st1)) with (attempt_count request st1) in Hmap2.
  cbn [sleep sent _request_attempt_count allocated] in *.
  repeat split; [lia | | congruence].
  rewrite Hmap2, Hmap1, insert_insert_eq, Hcount. f_equal. lia.
Qed.

(** Neither signal is read off a terminal error. *)
Lemma terminal_error_no_signal self request outcome msg factor tries :
  user_defined_signal tries (Raised (terminal_error self request outcome msg)) = None
  ∧ default_signal factor tries (Raised (terminal_error self request outcome msg)) = None
  ∧ retry_signal factor tries (Raised (terminal_error self request outcome msg)) = None.
Proof. done. Qed.

Section Handler.

Variables (signal : nat → result (option Response) → option (Q * Outcome * string))
          (self : HttpClient) (request : PreparedRequest) (max_tries max_time : Z)
          (target : Call).

Local Abbreviation handler fuel tries started st :=
  (on_exception fuel signal self request max_tries max_time target tries started st).

(** A result that is not the signal of the handler is passed on. *)
Lemma on_exception_pass fuel tries started st r st1 :
  target st = Some (r, st1) →
  signal tries r = None →
  handler (S fuel) tries started st = Some (r, st1).
Proof. intros Htarget Hsignal. cbn [on_exception]. by rewrite Htarget, Hsignal. Qed.

Lemma on_exception_none fuel tries started st :
  target st = None → handler fuel tries started st = None.
Proof. intros Htarget. destruct fuel; [done|]. cbn [on_exception]. by rewrite Htarget. Qed.

(** What a handler ends with: a result of its target that is not its signal,
    or the terminal error. *)
Lemma on_exception_result fuel : ∀ tries started st r st',
  handler fuel tries started st = Some (r, st') →
  (∃ st0 n, target st0 = Some (r, st') ∧ signal n r = None)
  ∨ (∃ outcome msg, r = Raised (terminal_error self request outcome msg)).
Proof.
  induction fuel as [|fuel IH]; intros tries started st r st'; [done|].
  cbn [on_exception].
  destruct (target st) as [[r1 st1]|] eqn:Htarget; [|done].
  destruct (signal tries r1) as [[[delay outcome] msg]|] eqn:Hsignal.
  - destruct (_ || _).
    + intros [= <- <-]. right. eauto.
    + apply IH.
  - intros [= <- <-]. left. eauto.
Qed.

(** The handler makes nothing but the attempts of its target. *)
Lemma on_exception_attempts fuel : ∀ tries started st r st',
  (∀ st0 r0 st1, target st0 = Some (r0, st1) → attempts_made request st0 st1) →
  handler fuel tries started st = Some (r, st') →
  attempts_made request st st'.
Proof.
  induction fuel as [|fuel IH]; intros tries started st r st' Htarget; [done|].
  cbn [on_exception].
  destruct (target st) as [[r1 st1]|] eqn:E; [|done].
  apply Htarget in E.
  destruct (signal tries r1) as [[[delay outcome] msg]|].
  - destruct (_ || _).
    + by intros [= <- <-].
    + intros Hrest. eapply attempts_made_sleep; [exact E|]. eapply IH; eauto.
  - by intros [= <- <-].
Qed.

(** A handler below its [max_tries] calls its target at most once for each
    try that is left. *)
Lemma on_exception_bound (bound : nat) fuel : ∀ tries started st r st',
  (∀ st0 r0 st1, target st0 = Some (r0, st1) →
                 (sent st0 ≤ sent st1 ≤ sent st0 + bound)%nat) →
  (Z.of_nat tries ≤ max_tries)%Z →
  handler fuel tries started st = Some (r, st') →
  (sent st ≤ sent st' ≤ sent st + (Z.to_nat max_tries - tries + 1) * bound)%nat.
Proof.
  induction fuel as [|fuel IH]; intros tries started st r st' Htarget Htries; [done|].
  cbn [on_exception].
  destruct (target st) as [[r1 st1]|] eqn:E; [|done].
  apply Htarget in E.
  destruct (signal tries r1) as [[[delay outcome] msg]|].
  - destruct (Z.eqb_spec (Z.of_nat tries) max_tries) as [Heq|Hne]; cbn [orb].
    + intros [= <- <-]. nia.
    + destruct (negb _).
      * intros [= <- <-]. nia.
      * intros Hrest. apply IH in Hrest; [|done|lia].
        cbn [sleep sent] in Hrest.
        replace (Z.to_nat max_tries - tries + 1)%nat
          with (S (Z.to_nat max_tries - S tries + 1))%nat by lia.
        nia.
  - intros [= <- <-]. nia.
Qed.


End Handler.

(** Two handlers that read the same signals off what the same target gives
    go the same way. *)
Lemma on_exception_ext signal signal' self request max_tries max_time
    (target target' : Call) fuel : ∀ tries started st,
  (∀ st0, target st0 = target' st0) →
  (∀ st0 r st1 n, target st0 = Some (r, st1) → signal n r = signal' n r) →
  on_exception fuel signal self request max_tries max_time target tries started st
  = on_exception fuel signal' self request max_tries max_time target' tries started st.
Proof.
  induction fuel as [|fuel IH]; intros tries started st Htarget Hsignal; [done|].
  cbn [on_exception]. rewrite <- Htarget.
  destruct (target st) as [[r1 st1]|] eqn:E; [|done].
  rewrite <- (Hsignal _ _ _ tries E).
  destruct (signal tries r1) as [[[delay outcome] msg]|]; [|done].
  destruct (_ || _); [done|]. by apply IH.
Qed.

Section Nested.

Variables (self : HttpClient) (request : PreparedRequest)
          (request_kwargs : gmap string string).

Local Abbreviation send := (λ st, Some (_send self request request_kwargs st)).

(** The signal [_send] raises tells whether the strategies gave a delay. *)
Lemma _send_signal st :
  match (_send self request request_kwargs st).1 with
  | Raised (UserDefinedBackoffException d _ outcome _) =>
      ∃ attempt, custom_backoff_time (_backoff_strategies self) outcome attempt = Some d
  | Raised (DefaultBackoffException _ outcome _) =>
      ∃ attempt, custom_backoff_time (_backoff_strategies self) outcome attempt = None
  | _ => True
  end.
Proof.
  rewrite _send_unfold; cbn zeta. unfold _send_dispatch; cbn zeta.
  destruct (response_action _); cbn; try done.
  - repeat match goal with
           | |- context [if ?b then _ else _] => destruct b; cbn
           | |- context [match ?o with Some _ => _ | None => _ end] => destruct o; cbn
           end; auto.
  - destruct (custom_backoff_time _ _ _) as [d|] eqn:E; cbn; [|eauto].
    pose proof (custom_backoff_time_truthy _ _ _ _ E) as Hd. cbn in Hd. rewrite Hd.
    cbn. eauto.
Qed.

(** The wrapped [_send] is one attempt. *)
Lemma send_attempts st0 r0 st1 :
  send st0 = Some (r0, st1) → attempts_made request st0 st1.
Proof.
  intros [= H]. pose proof (attempts_made_send self request request_kwargs st0) as Hmade.
  by rewrite H in Hmade.
Qed.

Lemma send_bound st0 r0 st1 :
  send st0 = Some (r0, st1) → (sent st0 ≤ sent st1 ≤ sent st0 + 1)%nat.
Proof.
  intros [= H]. pose proof (_send_state self request request_kwargs st0) as (Hsent & _).
  rewrite H in Hsent. cbn in Hsent. lia.
Qed.

(** The course of [_send_with_retry], read off a result obtained with any
    fuel: the attempts of the request are all that happened, and they are at
    most [max_tries] for each of the [max_tries] tries of the outer handler. *)
Lemma _send_with_retry_result fuel st r st' :
  _send_with_retry fuel self request request_kwargs st = Some (r, st') →
  attempts_made request st st'
  ∧ (sent st' - sent st ≤ Z.to_nat (max_tries_of self) * Z.to_nat (max_tries_of self))%nat.
Proof.
  unfold _send_with_retry, http_client_default_backoff_handler; cbn zeta.
  pose proof (max_tries_pos self) as Hpos.
  intros Hrun. split.
  - eapply on_exception_attempts; [|exact Hrun].
    intros st0 r0 st1 Hinner. unfold user_defined_backoff_handler in Hinner.
    eapply on_exception_attempts; [|exact Hinner]. apply send_attempts.
  - eapply (on_exception_bound _ _ _ _ _ _ (Z.to_nat (max_tries_of self))) in Hrun;
      [|clear Hrun|lia].
    + replace (Z.to_nat (max_tries_of self) - 1 + 1)%nat
        with (Z.to_nat (max_tries_of self)) in Hrun by lia. lia.
    + intros st0 r0 st1 Hinner. unfold user_defined_backoff_handler in Hinner.
      eapply (on_exception_bound _ _ _ _ _ _ 1) in Hinner; [|apply send_bound|lia].
      lia.
Qed.


(** A result of [_send] that is no signal is the result of
    [_send_with_retry]. *)
Lemma _send_with_retry_pass fuel st :
  retry_signal (factor_of self) 1 (_send self request request_kwargs st).1 = None →
  _send_with_retry (S fuel) self request request_kwargs st
  = Some (_send self request request_kwargs st).
Proof.
  intros Hnone.
  destruct (_send self request request_kwargs st) as [r st1] eqn:Hsend; cbn [fst] in Hnone.
  unfold _send_with_retry, http_client_default_backoff_handler; cbn zeta.
  apply on_exception_pass.
  - unfold user_defined_backoff_handler. apply on_exception_pass; [by rewrite Hsend|].
    by destruct r as [|[]].
  - by destruct r as [|[]].
Qed.

(** The loop of section 4.1 is one handler of both signals around [_send]
    whose tries are the attempts counted by the client. *)
Lemma retry_loop_on_exception max_tries max_time factor started fuel : ∀ st tries,
  tries = S (attempt_count request st) →
  retry_loop fuel self max_tries max_time factor started request request_kwargs st
  = on_exception fuel (retry_signal factor) self request max_tries max_time send
      tries started st.
Proof.
  induction fuel as [|fuel IH]; intros st tries Htries; [done|].
  cbn [retry_loop on_exception].
  pose proof (attempt_count_send self request request_kwargs st) as Hcount.
  destruct (_send self request request_kwargs st) as [r st1]; cbn [snd] in Hcount.
  rewrite Hcount, <- Htries.
  destruct (retry_signal factor tries r) as [[[delay outcome] msg]|]; [|done].
  destruct (_ || _); [done|]. apply IH. by rewrite Htries, <- Hcount.
Qed.

(** When the strategies signal in one way only, one of the two handlers has
    nothing to do: [_send_with_retry] is one handler of both signals around
    [_send]. *)
Lemma _send_with_retry_one_handler fuel st :
  one_kind_of_signal self →
  _send_with_retry (S fuel) self request request_kwargs st
  = on_exception (S fuel) (retry_signal (factor_of self)) self request
      (max_tries_of self) (max_time_of self) send 1 (now st) st.
Proof.
  intros Hkind.
  unfold _send_with_retry, http_client_default_backoff_handler; cbn zeta.
  destruct Hkind as [Hnone | Hsome].
  - (* no user-defined signal: the inner handler passes everything on *)
    apply on_exception_ext.
    + intros st0. unfold user_defined_backoff_handler.
      pose proof (_send_signal st0) as Hsig.
      destruct (_send self request request_kwargs st0) as [r0 st1] eqn:Hsend.
      apply on_exception_pass; [by rewrite Hsend|].
      destruct r0 as [|[]]; try done. cbn in Hsig. destruct Hsig as [n Hn].
      by rewrite Hnone in Hn.
    + intros st0 r0 st1 n Hinner. unfold user_defined_backoff_handler in Hinner.
      apply on_exception_result in Hinner as [(st2 & m & [= Hsend] & _) | (o & msg & ->)];
        [|done].
      pose proof (_send_signal st2) as Hsig. rewrite Hsend in Hsig.
      destruct r0 as [|[]]; try done. cbn in Hsig. destruct Hsig as [k Hk].
      by rewrite Hnone in Hk.
  - (* no default signal: the outer handler passes everything on *)
    assert (Hsend_sig : ∀ st0 r0 st1 n,
               send st0 = Some (r0, st1) →
               user_defined_signal n r0 = retry_signal (factor_of self) n r0).
    { intros st0 r0 st1 n [= Hsend].
      pose proof (_send_signal st0) as Hsig. rewrite Hsend in Hsig.
      destruct r0 as [|[]]; try done. cbn in Hsig.
      destruct Hsig as [k Hk]. by apply Hsome in Hk. }
    unfold user_defined_backoff_handler.
    destruct (on_exception (S fuel) user_defined_signal self request (max_tries_of self)
                (max_time_of self) send 1 (now st) st) as [[r st']|] eqn:Hinner.
    + rewrite <- (on_exception_ext user_defined_signal (retry_signal (factor_of self))
                    self request _ _ send send (S fuel) 1 (now st) st
                    (λ _, eq_refl) Hsend_sig).
      rewrite Hinner. apply on_exception_pass; [exact Hinner|].
      apply on_exception_result in Hinner as [(st2 & m & Hsend & Hm) | (o & msg & ->)];
        [|done].
      pose proof (Hsend_sig _ _ _ 1%nat Hsend) as Heq.
      by destruct r as [|[]].
    + rewrite <- (on_exception_ext user_defined_signal (retry_signal (factor_of self))
                    self request _ _ send send (S fuel) 1 (now st) st
                    (λ _, eq_refl) Hsend_sig).
      rewrite Hinner. by apply on_exception_none.
Qed.

(** Then, on a request not attempted before, [_send_with_retry] is the loop
    of section 4.1. *)
Lemma _send_with_retry_one_kind fuel st :
  one_kind_of_signal self →
  attempt_count request st = 0%nat →
  _send_with_retry (S fuel) self request request_kwargs st
  = retry_loop (S fuel) self (max_tries_of self) (max_time_of self) (factor_of self)
      (now st) request request_kwargs st.
Proof.
  intros Hkind Hzero.
  rewrite (retry_loop_on_exception _ _ _ _ _ st 1) by (by rewrite Hzero).
  by apply _send_with_retry_one_handler.
Qed.


End Nested.

(** ** A whole call of [send_request] *)

Lemma wf_initial_state : wf_state initial_state.
Proof. intros k [n Hn]. cbn in Hn. by rewrite lookup_empty in Hn. Qed.

Lemma wf_state_fresh st : wf_state st → _request_attempt_count st !! allocated st = None.
Proof.
  intros Hwf. destruct (_request_attempt_count st !! allocated st) eqn:E; [|done].
  specialize (Hwf (allocated st) (mk_is_Some _ _ E)). lia.
Qed.

Section SendRequest.

Variables (self : HttpClient) (http_method url : string)
          (request_kwargs : gmap string string)
          (headers params json : option (gmap string string))
          (data : option BodyData) (dedupe_query_params : bool).

(** Construction either raises [RequestBodyException] and leaves the state
    alone, or creates one new object. *)
Lemma _create_prepared_request_cases st :
  (∃ msg, _create_prepared_request self http_method url dedupe_query_params
            headers params json data st = (Raised (RequestBodyException msg), st))
  ∨ (∃ args, _create_prepared_request self http_method url dedupe_query_params
               headers params json data st
             = (Returned (prepare_request (_session self) (allocated st) args),
                (allocate st).2)).
Proof.
  unfold _create_prepared_request.
  repeat match goal with
         | |- context [if ?b then _ else _] => destruct b
         end; cbn; eauto.
Qed.

(** The course of one call from a well-formed state, read off a result that
    was obtained with any fuel: either nothing was prepared, or the new
    request got a counter which holds the number of calls of the
    transport. *)
Lemma send_request_result fuel st r st' :
  wf_state st →
  send_request fuel self http_method url request_kwargs headers params json data
    dedupe_query_params st = Some (r, st') →
  (st' = st ∧ ∃ msg, r = Raised (RequestBodyException msg))
  ∨ (_request_attempt_count st !! allocated st = None
     ∧ allocated st' = S (allocated st)
     ∧ (1 ≤ sent st' - sent st
        ≤ Z.to_nat (max_tries_of self) * Z.to_nat (max_tries_of self))%nat
     ∧ _request_attempt_count st'
       = <[allocated st := (sent st' - sent st)%nat]> (_request_attempt_count st)
     ∧ ∀ request response,
         r = Returned (request, response) → req_id request = allocated st).
Proof.
  intros Hwf. unfold send_request.
  destruct (_create_prepared_request_cases st) as [[msg ->] | [args ->]].
  { intros [= <- <-]. left. eauto. }
  pose proof (wf_state_fresh st Hwf) as Hfresh.
  set (request := prepare_request (_session self) (allocated st) args).
  set (st1 := (allocate st).2).
  assert (Hzero : attempt_count request st1 = 0%nat).
  { unfold attempt_count. cbn. by rewrite Hfresh. }
  destruct (_send_with_retry fuel self request request_kwargs st1) as [[r2 st2]|] eqn:Hrun;
    [|done].
  apply _send_with_retry_result in Hrun as ((Hsent & Hmap & Halloc) & Hbound).
  rewrite Hzero in Hmap.
  change (sent st1) with (sent st) in *.
  change (allocated st1) with (S (allocated st)) in *.
  change (_request_attempt_count st1) with (_request_attempt_count st) in *.
  change (req_id request) with (allocated st) in *.
  intros Hr. right.
  assert (st2 = st' ∧ ∀ request0 response,
             r = Returned (request0, response) → req_id request0 = allocated st)
    as [<- Hid].
  { destruct r2; injection Hr as <- <-; (split; [done|]); intros ? ? [=]; by subst. }
  repeat split; auto; lia.
Qed.


(** Well-formedness is kept by a call. *)
Lemma send_request_wf fuel st r st' :
  wf_state st →
  send_request fuel self http_method url request_kwargs headers params json data
    dedupe_query_params st = Some (r, st') →
  wf_state st'.
Proof.
  intros Hwf Hrun.
  pose proof (send_request_result fuel st r st' Hwf Hrun) as Hcases.
  destruct Hcases as [[-> _] | (_ & Halloc & _ & Hmap & _)]; [done|].
  intros k [n Hk]. rewrite Hmap in Hk. rewrite Halloc.
  destruct (decide (k = allocated st)) as [->|Hne]; [lia|].
  rewrite lookup_insert_ne in Hk by done.
  specialize (Hwf k (mk_is_Some _ _ Hk)). lia.
Qed.

End SendRequest.

(** ** The bound on the attempts *)




(** Without that condition the bound is lost.  With [max_retries = 2] and a
    strategy that gives a delay except at every third attempt, the handler of
    the given delays starts counting afresh each time the handler of the
    default backoff tries again, and the transport is called 9 times, where
    [max_tries] is 3. *)
Lemma nested_handlers_exceed_max_tries :
  max_tries_of every_third_client = 3%Z
  ∧ ∃ r st',
      send_request 3 every_third_client "GET" "http://x/" ∅ None None None None false
        initial_state = Some (r, st')
      ∧ sent st' = 9%nat
      ∧ _request_attempt_count st' !! 0%nat = Some 9%nat.
Proof.
  split; [reflexivity|].
  destruct (send_request _ _ _ _ _ _ _ _ _ _ _) as [[r st']|] eqn:E;
    vm_compute in E; [|discriminate].
  exists r, st'. split; [done|]. by injection E as <- <-.
Qed.

(** In every case the calls of the transport are at most [max_tries] for
    each of the [max_tries] tries of the outer handler. *)
Lemma send_request_attempts_bounded_by_square
    (self : HttpClient) (http_method url : string) (request_kwargs : gmap string string)
    (headers params json : option (gmap string string)) (data : option BodyData)
    (dedupe_query_params : bool) (fuel : nat) (st : ClientState)
    (r : result (PreparedRequest * option Response)) (st' : ClientState) :
  send_request fuel self http_method url request_kwargs headers params json data
    dedupe_query_params st = Some (r, st') →
  (Z.of_nat (sent st' - sent st) ≤ max_tries_of self * max_tries_of self)%Z.
Proof.
  intros Hrun. pose proof (max_tries_pos self) as Hpos.
  unfold send_request in Hrun.
  destruct (_create_prepared_request_cases self http_method url headers params json data
              dedupe_query_params st) as [[msg Hc] | [args Hc]]; rewrite Hc in Hrun.
  { injection Hrun as _ <-. nia. }
  destruct (_send_with_retry fuel self _ request_kwargs _) as [[r2 st2]|] eqn:Hretry;
    [|done].
  apply _send_with_retry_result in Hretry as [_ Hbound].
  cbn [allocate snd sent] in Hbound.
  assert (st2 = st') as <- by (destruct r2; by injection Hrun as _ <-).
  nia.
Qed.

(** ** Conflicting bodies *)

(** C2 (as the code has it).  For a method among GET, POST, PUT and PATCH
    (in any letter case), a call given both a non-empty [json] and a non-empty
    [data] raises [RequestBodyException]; the state is untouched: no request
    was prepared, the transport was not called, nothing was counted or
    retried. *)
Theorem both_bodies_raise_before_any_call
    (self : HttpClient) (http_method url : string) (request_kwargs : gmap string string)
    (headers params json : option (gmap string string)) (data : option BodyData)
    (dedupe_query_params : bool) (fuel : nat) (st : ClientState) :
  Py.upper http_method ∈ BODY_REQUEST_METHODS →
  Py.truthy_map json = true →
  truthy_data data = true →
  ∃ msg,
    send_request fuel self http_method url request_kwargs headers params json data
      dedupe_query_params st = Some (Raised (RequestBodyException msg), st).
Proof.
  intros Hmethod Hjson Hdata.
  unfold send_request, _create_prepared_request.
  rewrite (bool_decide_eq_true_2 _ Hmethod), Hjson, Hdata. cbn. eauto.
Qed.

Lemma both_bodies_raise_before_any_call_witness :
  ∃ msg,
    send_request 0 (example_client (constant_handler SUCCEED Absent) [] (inl response_200))
      "post" "http://x/" ∅ None None (Some {[ "k" := "v" ]}) (Some (DataStr "raw")) false
      initial_state
    = Some (Raised (RequestBodyException msg), initial_state).
Proof.
  apply (both_bodies_raise_before_any_call
           (example_client (constant_handler SUCCEED Absent) [] (inl response_200))
           "post" "http://x/" ∅ None None (Some {[ "k" := "v" ]}) (Some (DataStr "raw"))
           false 0 initial_state).
  - vm_compute. set_solver.
  - by vm_compute.
  - reflexivity.
Defined.

(** C2 as stated fails for the other methods: a DELETE given both bodies
    raises nothing; the request is prepared without a body and sent. *)
Lemma delete_with_both_bodies_is_sent :
  ∃ request response st',
    send_request 1 (example_client (constant_handler SUCCEED Absent) [] (inl response_200))
      "DELETE" "http://x/" ∅ None None (Some {[ "k" := "v" ]}) (Some (DataStr "raw")) false
      initial_state
    = Some (Returned (request, response), st')
    ∧ sent st' = 1%nat
    ∧ req_json request = None ∧ req_data request = None.
Proof.
  destruct (send_request _ _ _ _ _ _ _ _ _ _ _) as [[r st']|] eqn:E;
    vm_compute in E; [|discriminate].
  injection E as <- <-. by eexists _, _, _.
Qed.

(** ** Where the attempt count lives *)

(** C3 (as the code has it).  The attempt count is an entry of the client's
    dictionary [_request_attempt_count], under the request that
    [send_request] prepared.  That request is new, so it has no entry before
    the call: counting starts afresh.  When the call is over, whatever its
    result, the entry is still there and holds the number of attempts made;
    the entries of earlier requests are all kept, unchanged. *)
Theorem attempt_count_kept_in_client_dictionary
    (self : HttpClient) (http_method url : string) (request_kwargs : gmap string string)
    (headers params json : option (gmap string string)) (data : option BodyData)
    (dedupe_query_params : bool) (fuel : nat) (st : ClientState)
    (r : result (PreparedRequest * option Response)) (st' : ClientState) :
  wf_state st →
  send_request fuel self http_method url request_kwargs headers params json data
    dedupe_query_params st = Some (r, st') →
  (∀ k n, _request_attempt_count st !! k = Some n →
          _request_attempt_count st' !! k = Some n)
  ∧ ((st' = st ∧ ∃ msg, r = Raised (RequestBodyException msg))
     ∨ (_request_attempt_count st !! allocated st = None
        ∧ _request_attempt_count st' !! allocated st = Some (sent st' - sent st)%nat
        ∧ (1 ≤ sent st' - sent st)%nat
        ∧ ∀ request response,
            r = Returned (request, response) → req_id request = allocated st)).
Proof.
  intros Hwf Hrun.
  destruct (send_request_result self http_method url request_kwargs headers params json
              data dedupe_query_params fuel st r st' Hwf Hrun)
    as [[-> Hr] | (Hfresh & _ & Hsent & Hmap & Hid)].
  - split; [done|]. by left.
  - split.
    + intros k n Hk. rewrite Hmap.
      rewrite lookup_insert_ne; [done|]. intros <-. congruence.
    + right. repeat split; auto; try lia. rewrite Hmap. apply lookup_insert_eq.
Qed.

Lemma attempt_count_kept_in_client_dictionary_witness :
  ∃ r st',
    send_request 3 (example_client (constant_handler RETRY (Value 1%Z)) [] (inl response_500))
      "GET" "http://x/" ∅ None None None None false initial_state = Some (r, st')
    ∧ _request_attempt_count st' !! 0%nat = Some 2%nat.
Proof.
  destruct (send_request _ _ _ _ _ _ _ _ _ _ _) as [[r st']|] eqn:E;
    [|vm_compute in E; discriminate].
  exists r, st'. split; [done|].
  destruct (attempt_count_kept_in_client_dictionary _ _ _ _ _ _ _ _ _ _ _ _ _
              wf_initial_state E) as [_ [[-> _] | (_ & Hcount & _)]].
  - vm_compute in E. discriminate.
  - vm_compute in E. injection E as <- <-. exact Hcount.
Defined.

(** C3 as stated fails: after a successful call the count of the request is
    still stored in the dictionary of the client. *)
Lemma attempt_count_survives_completion :
  ∃ request response st',
    send_request 1 (example_client (constant_handler SUCCEED Absent) [] (inl response_200))
      "GET" "http://x/" ∅ None None None None false initial_state
    = Some (Returned (request, response), st')
    ∧ _request_attempt_count st' !! req_id request = Some 1%nat.
Proof.
  destruct (send_request _ _ _ _ _ _ _ _ _ _ _) as [[r st']|] eqn:E;
    vm_compute in E; [|discriminate].
  injection E as <- <-. by eexists _, _, _.
Qed.

(** ** The resolution of the limits *)

(** The loop with [break] finds the first exposed override. *)
Lemma first_exposed_spec {A} (attr : BackoffStrategy → Attr A) strategies (dflt : A) :
  first_exposed attr strategies dflt = default dflt (spec_first_override attr strategies).
Proof.
  unfold spec_first_override.
  induction strategies as [|s rest IH]; [done|].
  cbn. destruct (attr s); cbn; auto.
Qed.

(** C4.  The limits follow the precedence of the specification:
    [max_retries] and [max_time] are the override of the error handler if it
    exposes one, else that of the first strategy exposing one, else 5 and 600;
    [factor] is that of the first strategy exposing one, else 5;
    [max_tries = max(max_retries, 0) + 1]; and both retry handlers of one
    call run with these values, resolved once. *)
Theorem limits_follow_precedence (self : HttpClient) :
  max_retries_of self
  = spec_limit (eh_max_retries (_error_handler self)) bs_max_retries
      (_backoff_strategies self) 5%Z
  ∧ max_time_of self
    = spec_limit (eh_max_time (_error_handler self)) bs_max_time
        (_backoff_strategies self) 600%Z
  ∧ factor_of self = default 5%Q (spec_first_override bs_factor (_backoff_strategies self))
  ∧ max_tries_of self = (Z.max (max_retries_of self) 0 + 1)%Z
  ∧ ∀ fuel request request_kwargs st,
      _send_with_retry fuel self request request_kwargs st
      = http_client_default_backoff_handler fuel self request
          (Z.max (max_retries_of self) 0 + 1) (max_time_of self) (factor_of self)
          (user_defined_backoff_handler fuel self request
             (Z.max (max_retries_of self) 0 + 1) (max_time_of self)
             (λ st, Some (_send self request request_kwargs st)))
          st.
Proof.
  assert (Htries : max_tries_of self = (Z.max (max_retries_of self) 0 + 1)%Z).
  { unfold max_tries_of. lia. }
  repeat split.
  - unfold max_retries_of, spec_limit.
    destruct (eh_max_retries _); cbn; auto using first_exposed_spec.
  - unfold max_time_of, spec_limit.
    destruct (eh_max_time _); cbn; auto using first_exposed_spec.
  - apply first_exposed_spec.
  - exact Htries.
  - intros. unfold _send_with_retry. by rewrite Htries.
Qed.

(** The RETRY branch of [_send]. *)
Lemma _send_RETRY self request request_kwargs st :
  let outcome := outcome_of (session_send (_session self) (sent st) request request_kwargs) in
  let res := interpret_response (_error_handler self) outcome in
  response_action res = RETRY →
  _send self request request_kwargs st
  = (match custom_backoff_time (_backoff_strategies self) outcome
             (S (attempt_count request st)) with
     | Some d => Raised (UserDefinedBackoffException d request outcome
                           (retry_message request res))
     | None => Raised (DefaultBackoffException request outcome (retry_message request res))
     end,
     attempt_state self request request_kwargs st).
Proof.
  intros outcome res Hretry.
  rewrite _send_unfold; cbn zeta. fold outcome. fold res.
  unfold _send_dispatch. rewrite Hretry.
  assert (attempt_count request (attempt_state self request request_kwargs st)
          = S (attempt_count request st)) as ->.
  { unfold attempt_count at 1.
    destruct (attempt_state_fields self request request_kwargs st) as (_ & -> & _).
    rewrite count_attempt_insert. by rewrite lookup_insert_eq. }
  fold outcome.
  destruct (custom_backoff_time _ _ _) as [d|] eqn:E; [|done].
  by rewrite (custom_backoff_time_truthy _ _ _ _ E).
Qed.




(** ** Zero delays *)

Lemma truthy_num_zero_as_none t : Py.truthy_num (zero_as_none t) = Py.truthy_num t.
Proof.
  destruct t as [q|]; [|done]. cbn.
  destruct (Qnum q =? 0)%Z eqn:E; cbn; by rewrite ?E.
Qed.

Lemma zero_as_none_truthy t : Py.truthy_num t = true → zero_as_none t = t.
Proof.
  destruct t as [q|]; [|done]. cbn. by destruct (Qnum q =? 0)%Z.
Qed.

Lemma custom_backoff_time_zero_as_none strategies outcome attempt :
  custom_backoff_time (map declining_on_zero strategies) outcome attempt
  = custom_backoff_time strategies outcome attempt.
Proof.
  induction strategies as [|s rest IH]; [done|].
  cbn. rewrite truthy_num_zero_as_none.
  destruct (Py.truthy_num (backoff_time s outcome attempt)) eqn:E; [|done].
  by apply zero_as_none_truthy.
Qed.

(** A rational that equals zero is false for Python. *)
Lemma truthy_num_zero q : (q == 0)%Q → Py.truthy_num (Some q) = false.
Proof.
  unfold Qeq; cbn. intros H. replace (Qnum q) with 0%Z by lia. done.
Qed.

(** A rational that differs from zero is true for Python. *)
Lemma truthy_num_nonzero q : ¬ (q == 0)%Q → Py.truthy_num (Some q) = true.
Proof.
  unfold Qeq; cbn. intros H. destruct (Z.eqb_spec (Qnum q) 0) as [Hq|]; [|done].
  exfalso. apply H. lia.
Qed.

(** C9.  A strategy answering zero is treated as one answering [None]:
    replacing every zero answer by [None] changes nothing in what [_send]
    does, so the later strategies are asked all the same.  When, on a
    RETRY outcome, every strategy answers zero or [None], [_send] raises the
    signal of the default (exponential) backoff, not a delay of zero
    seconds.  And the selection falls through in declared order: when the
    strategies before one answer zero or [None] and that one answers a delay
    which is not zero, [_send] signals that delay, whatever the strategies
    after it answer. *)
Theorem zero_delay_is_no_delay :
  (∀ self request request_kwargs st,
      _send (with_strategies self (map declining_on_zero (_backoff_strategies self)))
        request request_kwargs st
      = _send self request request_kwargs st)
  ∧ (∀ self request request_kwargs st,
        let outcome :=
          outcome_of (session_send (_session self) (sent st) request request_kwargs) in
        let attempt := S (attempt_count request st) in
        response_action (interpret_response (_error_handler self) outcome) = RETRY →
        (∀ b, b ∈ _backoff_strategies self →
              backoff_time b outcome attempt = None
              ∨ ∃ q, backoff_time b outcome attempt = Some q ∧ (q == 0)%Q) →
        ∃ msg,
          _send self request request_kwargs st
          = (Raised (DefaultBackoffException request outcome msg),
             attempt_state self request request_kwargs st))
  ∧ (∀ self request request_kwargs st before s after d,
        let outcome :=
          outcome_of (session_send (_session self) (sent st) request request_kwargs) in
        let attempt := S (attempt_count request st) in
        response_action (interpret_response (_error_handler self) outcome) = RETRY →
        _backoff_strategies self = (before ++ s :: after)%list →
        (∀ b, b ∈ before →
              backoff_time b outcome attempt = None
              ∨ ∃ q, backoff_time b outcome attempt = Some q ∧ (q == 0)%Q) →
        backoff_time s outcome attempt = Some d →
        ¬ (d == 0)%Q →
        ∃ msg,
          _send self request request_kwargs st
          = (Raised (UserDefinedBackoffException d request outcome msg),
             attempt_state self request request_kwargs st)).
Proof.
  split; [|split].
  - intros self request request_kwargs st.
    rewrite !_send_unfold; cbn zeta.
    change (attempt_state (with_strategies _ _) request request_kwargs st)
      with (attempt_state self request request_kwargs st).
    unfold _send_dispatch; cbn [with_strategies _session _error_handler _backoff_strategies].
    destruct (response_action _); try reflexivity.
    by rewrite custom_backoff_time_zero_as_none.
  - intros self request request_kwargs st outcome attempt Hretry Hall.
    pose proof (_send_RETRY self request request_kwargs st Hretry) as Hsend.
    fold outcome attempt in Hsend.
    rewrite custom_backoff_time_none in Hsend; [eauto|].
    intros b Hb. destruct (Hall b Hb) as [-> | (q & -> & Hq)]; [done|].
    by apply truthy_num_zero.
  - intros self request request_kwargs st before s after d outcome attempt
      Hretry Hlist Hbefore Hs Hd.
    pose proof (_send_RETRY self request request_kwargs st Hretry) as Hsend.
    fold outcome attempt in Hsend.
    rewrite Hlist, (custom_backoff_time_first outcome attempt before s after d) in Hsend;
      [eauto| |done|by apply truthy_num_nonzero].
    intros b Hb. destruct (Hbefore b Hb) as [-> | (q & -> & Hq)]; [done|].
    by apply truthy_num_zero.
Qed.

Lemma zero_delay_is_no_delay_witness :
  (∃ msg,
     _send zero_delay_client example_request ∅ initial_state
     = (Raised (DefaultBackoffException example_request
                  (GotResponse {| status_code := 429; text := "slow down" |}) msg),
        attempt_state zero_delay_client example_request ∅ initial_state))
  ∧ (∃ msg,
       _send zero_none_ten_twenty_client example_request ∅ initial_state
       = (Raised (UserDefinedBackoffException 10 example_request
                    (GotResponse {| status_code := 429; text := "slow down" |}) msg),
          attempt_state zero_none_ten_twenty_client example_request ∅ initial_state)).
Proof.
  split.
  - apply (proj1 (proj2 zero_delay_is_no_delay) zero_delay_client example_request ∅
             initial_state eq_refl).
    intros b Hb. apply elem_of_cons in Hb as [-> | Hb].
    + right. exists 0%Q. by split.
    + apply list_elem_of_singleton in Hb as ->. by left.
  - apply (proj2 (proj2 zero_delay_is_no_delay) zero_none_ten_twenty_client example_request ∅
             initial_state
             [plain_strategy (λ _ _, Some 0%Q); plain_strategy (λ _ _, None)]
             (plain_strategy (λ _ _, Some 10%Q)) [plain_strategy (λ _ _, Some 20%Q)] 10%Q
             eq_refl eq_refl).
    + intros b Hb. apply elem_of_cons in Hb as [-> | Hb].
      * right. exists 0%Q. by split.
      * apply list_elem_of_singleton in Hb as ->. by left.
    + reflexivity.
    + intros H. discriminate H.
Defined.

(** ** The FAIL branch *)

(** On FAIL, [_send] raises at once; the user-facing message is the message
    of the handler when it has one, else the internal message; the loop does
    not try again, and neither do the handlers of [_send_with_retry]. *)
Lemma _send_FAIL self request request_kwargs st fuel max_tries max_time factor started :
  let answer := session_send (_session self) (sent st) request request_kwargs in
  let res := interpret_response (_error_handler self) (outcome_of answer) in
  let internal := fail_message self request (response_of answer) (exc_of answer) in
  let raised :=
    (Raised (AirbyteTracedException internal (Py.or_str (error_message res) internal)
               (failure_type res)),
     attempt_state self request request_kwargs st) in
  response_action res = FAIL →
  _send self request request_kwargs st = raised
  ∧ retry_loop (S fuel) self max_tries max_time factor started request request_kwargs st
    = Some raised
  ∧ _send_with_retry (S fuel) self request request_kwargs st = Some raised.
Proof.
  intros answer res internal raised Hfail.
  assert (Hsend : _send self request request_kwargs st = raised).
  { rewrite _send_unfold; cbn zeta. fold answer res.
    unfold _send_dispatch. by rewrite Hfail. }
  split; [done|]. split.
  - cbn [retry_loop]. by rewrite Hsend.
  - rewrite _send_with_retry_pass; by rewrite Hsend.
Qed.

(** When the response is [ok], the internal message carries the method, the
    URL, the status code and the message of the parser. *)
Lemma fail_message_ok self request r exc :
  ok r = true →
  fail_message self request (Some r) exc = status_message self request r.
Proof. intros H. unfold fail_message. by rewrite H. Qed.

(** C7 fails on the code for an error response.  A 404 response whose body
    the parser reads as [not found], failed by the handler without a message:
    the error raised says the request failed with exception [None]; it carries
    neither the status code nor the message of the parser, because the test
    [if response:] is false for every response with an error status. *)
Theorem fail_on_error_response_drops_status_and_parser_message :
  _error_message_parser failing_client {| status_code := 404; text := "not found" |}
  = Some "not found"
  ∧ (_send failing_client example_request ∅ initial_state).1
    = Raised (AirbyteTracedException
                "'GET' request to 'http://x/' failed with exception: 'None'"
                "'GET' request to 'http://x/' failed with exception: 'None'"
                SYSTEM)
  ∧ status_message failing_client example_request
      {| status_code := 404; text := "not found" |}
    = "'GET' request to 'http://x/' failed with status code '404' and error message 'not found'".
Proof. by vm_compute. Qed.

(** ** The IGNORE branch *)

(** C8 fails on the code for an error response.  A 404 response, ignored by
    the handler without a message: [_send] returns that very response after
    one call of the transport, and [_send_with_retry] returns it as well
    without another attempt; but the one record logged at level INFO says the
    response was ignored with error [None].  It does not tell the outcome,
    because the test [if response:] is false for every response with an error
    status; the record written for such a response would give its code, as it
    does for a response that is [ok]. *)
Theorem ignored_error_response_is_logged_without_its_status :
  _send ignoring_client example_request ∅ initial_state
  = (Returned (Some {| status_code := 404; text := "not found" |}),
     log_call INFO "Ignoring response for 'GET' request to 'http://x/' with error 'None'"
       (attempt_state ignoring_client example_request ∅ initial_state))
  ∧ _send_with_retry 1 ignoring_client example_request ∅ initial_state
    = Some (_send ignoring_client example_request ∅ initial_state)
  ∧ sent (_send ignoring_client example_request ∅ initial_state).2 = 1%nat
  ∧ logged (_send ignoring_client example_request ∅ initial_state).2
    = [(DEBUG, "Making outbound API request");
       (INFO, "Ignoring response for 'GET' request to 'http://x/' with error 'None'")]
  ∧ ignore_message example_request (Some {| status_code := 200; text := "{}" |}) None
    = "Ignoring response for 'GET' request to 'http://x/' with response code '200'".
Proof. by vm_compute. Qed.

(** C10.  When the transport raises and the handler says IGNORE, [_send]
    returns [None]; [send_request] then returns the pair of the request and
    [None]. *)
Theorem ignored_transport_error_returns_none
    (self : HttpClient) (http_method url : string) (request_kwargs : gmap string string)
    (headers params json : option (gmap string string)) (data : option BodyData)
    (dedupe_query_params : bool) (fuel : nat) (st st0 : ClientState)
    (request : PreparedRequest) (e : RequestException) :
  _create_prepared_request self http_method url dedupe_query_params headers params json data
    st
  = (Returned request, st0) →
  session_send (_session self) (sent st0) request request_kwargs = inr e →
  response_action (interpret_response (_error_handler self) (GotException e)) = IGNORE →
  (_send self request request_kwargs st0).1 = Returned None
  ∧ ∃ st',
      send_request (S fuel) self http_method url request_kwargs headers params json data
        dedupe_query_params st = Some (Returned (request, None), st').
Proof.
  intros Hcreate Hanswer Hignore.
  assert (Hsend : ∃ st', _send self request request_kwargs st0 = (Returned None, st')).
  { rewrite _send_unfold; cbn zeta. rewrite Hanswer. cbn [outcome_of].
    unfold _send_dispatch. rewrite Hignore. eauto. }
  destruct Hsend as [st' Hsend]. split; [by rewrite Hsend|].
  exists st'. unfold send_request. rewrite Hcreate.
  rewrite _send_with_retry_pass; by rewrite Hsend.
Qed.

Lemma ignored_transport_error_returns_none_witness :
  (_send (example_client (constant_handler IGNORE Absent) [] (inr timeout_error))
     example_request ∅ (allocate initial_state).2).1 = Returned None
  ∧ ∃ st',
      send_request 1 (example_client (constant_handler IGNORE Absent) [] (inr timeout_error))
        "GET" "http://x/" ∅ None None None None false initial_state
      = Some (Returned (example_request, None), st').
Proof.
  exact (ignored_transport_error_returns_none
           (example_client (constant_handler IGNORE Absent) [] (inr timeout_error))
           "GET" "http://x/" ∅ None None None None false 0 initial_state
           (allocate initial_state).2 example_request timeout_error
           eq_refl eq_refl eq_refl).
Defined.

(** ** Query parameters already in the URL *)

(** The keys found duplicated: those the URL gives the value that [str] of the
    parameter gives. *)
Lemma elem_of_duplicate_keys (qd params : gmap string string) k :
  k ∈ duplicate_keys_with_same_value qd params
  ↔ qd !! k = Some (Py.str_opt (params !! k)).
Proof.
  unfold duplicate_keys_with_same_value.
  rewrite elem_of_dom. unfold is_Some.
  setoid_rewrite map_lookup_filter_Some. cbn.
  split.
  - intros (w & Hw & <-). done.
  - intros H. eauto.
Qed.

Lemma _dedupe_query_params_lookup url params k v :
  _dedupe_query_params url params !! k = Some v
  ↔ default ∅ params !! k = Some v ∧ query_dict url !! k ≠ Some v.
Proof.
  unfold _dedupe_query_params.
  rewrite map_lookup_filter_Some. cbn.
  rewrite elem_of_duplicate_keys.
  split; intros [Hk Hne]; (split; [done|]); by rewrite Hk in *.
Qed.



(** * Further properties of the client *)

(** ** One attempt *)

(** X1.  One call of [_send] is one attempt: the transport is called exactly
    once, the counter of the request grows by one, the counters of all other
    requests are untouched, no object is created, and the log only grows,
    starting with the record of the outbound request. *)
Theorem send_is_one_attempt
    (self : HttpClient) (request : PreparedRequest) (request_kwargs : gmap string string)
    (st : ClientState) :
  let st1 := (_send self request request_kwargs st).2 in
  sent st1 = S (sent st)
  ∧ attempt_count request st1 = S (attempt_count request st)
  ∧ (∀ k, k ≠ req_id request →
          _request_attempt_count st1 !! k = _request_attempt_count st !! k)
  ∧ allocated st1 = allocated st
  ∧ ∃ more, logged st1 = (logged st ++ (DEBUG, "Making outbound API request") :: more)%list.
Proof.
  cbn zeta.
  destruct (_send_state self request request_kwargs st) as (Hsent & Hmap & Halloc).
  repeat split; auto.
  - apply attempt_count_send.
  - intros k Hk. rewrite Hmap, count_attempt_insert. by rewrite lookup_insert_ne.
  - rewrite _send_unfold; cbn zeta.
    unfold _send_dispatch, attempt_state; cbn zeta.
    destruct (response_action _); cbn;
      repeat match goal with
             | |- context [if ?b then _ else _] => destruct b; cbn
             | |- context [match ?o with Some _ => _ | None => _ end] => destruct o; cbn
             end;
      rewrite <- ?app_assoc; cbn; eauto.
Qed.

Lemma send_is_one_attempt_witness :
  _request_attempt_count
    (_send (example_client (constant_handler SUCCEED Absent) [] (inl response_200))
       example_request ∅
       (set_attempts {[ 7%nat := 3%nat ]} initial_state)).2 !! 7%nat
  = Some 3%nat.
Proof.
  destruct (send_is_one_attempt
              (example_client (constant_handler SUCCEED Absent) [] (inl response_200))
              example_request ∅ (set_attempts {[ 7%nat := 3%nat ]} initial_state))
    as (_ & _ & Hothers & _).
  rewrite (Hothers 7%nat); [reflexivity | discriminate].
Defined.

(** X2.  [_send] never raises [HTTPError]: the call of [raise_for_status] is
    guarded by [elif response:], which only lets pass the responses for which
    it does not raise.  So an outcome the handler resolves to SUCCEED is
    handed back as it came, a response of any status or [None]. *)
Theorem send_never_raises_HTTPError
    (self : HttpClient) (request : PreparedRequest) (request_kwargs : gmap string string)
    (st : ClientState) :
  let answer := session_send (_session self) (sent st) request request_kwargs in
  (∀ r, (_send self request request_kwargs st).1 ≠ Raised (HTTPError r))
  ∧ (response_action (interpret_response (_error_handler self) (outcome_of answer)) = SUCCEED →
     _send self request request_kwargs st
     = (Returned (response_of answer), attempt_state self request request_kwargs st)).
Proof.
  cbn zeta. rewrite _send_unfold; cbn zeta. unfold _send_dispatch.
  split.
  - intros r.
    destruct (response_action _); cbn; try discriminate.
    + destruct (response_of _) as [r'|]; [|done].
      unfold ok. by destruct (raises_for_status r').
    + destruct (custom_backoff_time _ _ _) as [d|]; [|done].
      by destruct (Py.truthy_num (Some d)).
  - intros ->. destruct (response_of _) as [r'|]; [|done].
    unfold ok. by destruct (raises_for_status r').
Qed.

Lemma send_never_raises_HTTPError_witness :
  _send (example_client (constant_handler SUCCEED Absent) [] (inl response_500))
    example_request ∅ initial_state
  = (Returned (Some response_500),
     attempt_state (example_client (constant_handler SUCCEED Absent) [] (inl response_500))
       example_request ∅ initial_state).
Proof.
  exact (proj2 (send_never_raises_HTTPError
                  (example_client (constant_handler SUCCEED Absent) [] (inl response_500))
                  example_request ∅ initial_state) eq_refl).
Defined.

(** X3.  On a RETRY outcome [_send] always raises one of the two backoff
    signals.  The delay of [UserDefinedBackoffException] is the answer of one
    of the configured strategies and is never zero; the default signal is
    raised exactly when every strategy declines. *)
Theorem retry_raises_a_backoff_signal
    (self : HttpClient) (request : PreparedRequest) (request_kwargs : gmap string string)
    (st : ClientState) :
  let outcome := outcome_of (session_send (_session self) (sent st) request request_kwargs) in
  let res := interpret_response (_error_handler self) outcome in
  let attempt := S (attempt_count request st) in
  response_action res = RETRY →
  (∃ d s,
      s ∈ _backoff_strategies self
      ∧ backoff_time s outcome attempt = Some d
      ∧ ¬ (d == 0)%Q
      ∧ (_send self request request_kwargs st).1
        = Raised (UserDefinedBackoffException d request outcome (retry_message request res)))
  ∨ ((∀ s, s ∈ _backoff_strategies self →
           Py.truthy_num (backoff_time s outcome attempt) = false)
     ∧ (_send self request request_kwargs st).1
       = Raised (DefaultBackoffException request outcome (retry_message request res))).
Proof.
  intros outcome res attempt Hretry.
  rewrite (_send_RETRY self request request_kwargs st Hretry). cbn [fst].
  fold outcome res attempt.
  generalize (_backoff_strategies self). intros strategies.
  induction strategies as [|s rest IH]; cbn [custom_backoff_time].
  - right. split; [|done]. intros s Hs. by apply elem_of_nil in Hs.
  - destruct (Py.truthy_num (backoff_time s outcome attempt)) eqn:E.
    + left. destruct (backoff_time s outcome attempt) as [d|] eqn:Hd; [|done].
      exists d, s. split; [apply list_elem_of_here|]. split; [done|]. split; [|done].
      intros Hzero. by rewrite (truthy_num_zero d Hzero) in E.
    + destruct IH as [(d & s' & Hin & Hd & Hnz & Hres) | [Hall Hres]].
      * left. exists d, s'. repeat split; auto. by apply list_elem_of_further.
      * right. split; [|done].
        intros s' Hs'. apply elem_of_cons in Hs' as [-> | Hs']; auto.
Qed.

Lemma retry_raises_a_backoff_signal_witness :
  (∃ d s,
      s ∈ _backoff_strategies zero_then_ten_client
      ∧ backoff_time s (GotResponse {| status_code := 429; text := "slow down" |}) 1 = Some d
      ∧ ¬ (d == 0)%Q
      ∧ (_send zero_then_ten_client example_request ∅ initial_state).1
        = Raised (UserDefinedBackoffException d example_request
                    (GotResponse {| status_code := 429; text := "slow down" |})
                    (retry_message example_request (resolution RETRY))))
  ∨ ((∀ s, s ∈ _backoff_strategies zero_then_ten_client →
           Py.truthy_num
             (backoff_time s (GotResponse {| status_code := 429; text := "slow down" |}) 1)
           = false)
     ∧ (_send zero_then_ten_client example_request ∅ initial_state).1
       = Raised (DefaultBackoffException example_request
                   (GotResponse {| status_code := 429; text := "slow down" |})
                   (retry_message example_request (resolution RETRY)))).
Proof.
  exact (retry_raises_a_backoff_signal zero_then_ten_client example_request ∅ initial_state
           eq_refl).
Defined.

(** X4.  On a FAIL outcome [_send] raises at once; the loop does not try
    again, and neither do the handlers of [_send_with_retry].  The message for the user is the message of the handler unless
    that is [None] or empty, in which case it is the internal message.  After
    a transport exception the internal message quotes the text of the
    exception; for a response that is [ok] it quotes the status code and the
    parser's message. *)
Theorem fail_raises_at_once
    (self : HttpClient) (request : PreparedRequest) (request_kwargs : gmap string string)
    (st : ClientState) (fuel : nat) (max_tries max_time : Z) (factor started : Q) :
  let answer := session_send (_session self) (sent st) request request_kwargs in
  let res := interpret_response (_error_handler self) (outcome_of answer) in
  response_action res = FAIL →
  ∃ internal message,
    let raised :=
      (Raised (AirbyteTracedException internal message (failure_type res)),
       attempt_state self request request_kwargs st) in
    _send self request request_kwargs st = raised
    ∧ retry_loop (S fuel) self max_tries max_time factor started request request_kwargs st
      = Some raised
    ∧ _send_with_retry (S fuel) self request request_kwargs st = Some raised
    ∧ message = match error_message res with
                | Some (String c m) => String c m
                | _ => internal
                end
    ∧ (∀ e, answer = inr e →
            internal = "'" +:+ req_method request +:+ "' request to '" +:+ req_url request
                       +:+ "' failed with exception: '" +:+ exc_text e +:+ "'")
    ∧ (∀ r, answer = inl r → ok r = true →
            internal = "'" +:+ req_method request +:+ "' request to '" +:+ req_url request
                       +:+ "' failed with status code '" +:+ pretty (status_code r)
                       +:+ "' and error message '"
                       +:+ Py.str_opt (_error_message_parser self r) +:+ "'").
Proof.
  intros answer res Hfail.
  destruct (_send_FAIL self request request_kwargs st fuel max_tries max_time factor started
              Hfail) as (Hsend & Hloop & Hretry).
  fold answer res in Hsend, Hloop, Hretry.
  eexists _, _. cbn zeta. split; [exact Hsend|]. split; [exact Hloop|].
  split; [exact Hretry|]. split; [|split].
  - unfold Py.or_str. destruct (error_message res) as [[|c m]|]; done.
  - intros e ->. reflexivity.
  - intros r -> Hok. cbn [response_of]. by rewrite fail_message_ok.
Qed.

Lemma fail_raises_at_once_witness :
  ∃ internal message,
    _send (example_client (constant_handler FAIL Absent) [] (inr timeout_error))
      example_request ∅ initial_state
    = (Raised (AirbyteTracedException internal message SYSTEM),
       attempt_state (example_client (constant_handler FAIL Absent) [] (inr timeout_error))
         example_request ∅ initial_state)
    ∧ message = internal
    ∧ internal = "'GET' request to 'http://x/' failed with exception: 'timed out'".
Proof.
  destruct (fail_raises_at_once
              (example_client (constant_handler FAIL Absent) [] (inr timeout_error))
              example_request ∅ initial_state 0 1 600 5 0 eq_refl)
    as (internal & message & Hsend & _ & _ & Hmsg & Hexc & _).
  exists internal, message. split; [exact Hsend|]. split; [exact Hmsg|].
  exact (Hexc timeout_error eq_refl).
Defined.

(** X5.  On an IGNORE outcome [_send] returns what the transport produced
    and logs exactly one more record, at level INFO: the message of the
    handler unless that is [None] or empty, else a message that quotes the
    text of the exception after a transport exception, and the status code
    for a response that is [ok]. *)
Theorem ignore_logs_handler_message_first
    (self : HttpClient) (request : PreparedRequest) (request_kwargs : gmap string string)
    (st : ClientState) :
  let answer := session_send (_session self) (sent st) request request_kwargs in
  let res := interpret_response (_error_handler self) (outcome_of answer) in
  let st0 := attempt_state self request request_kwargs st in
  response_action res = IGNORE →
  ∃ logged_message generated,
    _send self request request_kwargs st
    = (Returned (response_of answer), log_call INFO logged_message st0)
    ∧ logged (log_call INFO logged_message st0) = (logged st0 ++ [(INFO, logged_message)])%list
    ∧ logged_message = match error_message res with
                       | Some (String c m) => String c m
                       | _ => generated
                       end
    ∧ (∀ e, answer = inr e →
            generated = "Ignoring response for '" +:+ req_method request
                        +:+ "' request to '" +:+ req_url request
                        +:+ "' with error '" +:+ exc_text e +:+ "'")
    ∧ (∀ r, answer = inl r → ok r = true →
            generated = "Ignoring response for '" +:+ req_method request
                        +:+ "' request to '" +:+ req_url request
                        +:+ "' with response code '" +:+ pretty (status_code r) +:+ "'").
Proof.
  intros answer res st0 Hignore.
  exists (Py.or_str (error_message res)
            (ignore_message request (response_of answer) (exc_of answer))),
         (ignore_message request (response_of answer) (exc_of answer)).
  split; [|split; [|split; [|split]]].
  - rewrite _send_unfold; cbn zeta. fold answer res st0.
    unfold _send_dispatch. by rewrite Hignore.
  - reflexivity.
  - unfold Py.or_str. destruct (error_message res) as [[|c m]|]; done.
  - intros e ->. reflexivity.
  - intros r -> Hok. cbn [response_of ignore_message]. by rewrite Hok.
Qed.

Lemma ignore_logs_handler_message_first_witness :
  ∃ logged_message generated,
    _send (example_client (constant_handler IGNORE Absent) [] (inr timeout_error))
      example_request ∅ initial_state
    = (Returned None,
       log_call INFO logged_message
         (attempt_state (example_client (constant_handler IGNORE Absent) [] (inr timeout_error))
            example_request ∅ initial_state))
    ∧ logged_message = generated
    ∧ generated = "Ignoring response for 'GET' request to 'http://x/' with error 'timed out'".
Proof.
  destruct (ignore_logs_handler_message_first
              (example_client (constant_handler IGNORE Absent) [] (inr timeout_error))
              example_request ∅ initial_state eq_refl)
    as (logged_message & generated & Hsend & _ & Hmsg & Hexc & _).
  exists logged_message, generated. split; [exact Hsend|]. split; [exact Hmsg|].
  exact (Hexc timeout_error eq_refl).
Defined.

(** ** Request construction *)

(** X6.  [_dedupe_query_params] only removes: what it returns is part of the
    given parameters, with the values they had.  A key that the query string
    of the URL does not carry is always kept, so a URL without a query string
    leaves the parameters as they are; and [None] for the parameters gives the
    empty dictionary. *)
Theorem dedupe_only_removes :
  (∀ url params, _dedupe_query_params url params ⊆ default ∅ params)
  ∧ (∀ url params k,
        query_dict url !! k = None →
        _dedupe_query_params url params !! k = default ∅ params !! k)
  ∧ (∀ url params, Url.query url = "" → _dedupe_query_params url params = default ∅ params)
  ∧ (∀ url, _dedupe_query_params url None = ∅).
Proof.
  assert (Hkeep : ∀ url params k,
             query_dict url !! k = None →
             _dedupe_query_params url params !! k = default ∅ params !! k).
  { intros url params k Hk.
    destruct (default ∅ params !! k) as [v|] eqn:E.
    - apply _dedupe_query_params_lookup. split; [done|]. by rewrite Hk.
    - destruct (_dedupe_query_params url params !! k) as [v|] eqn:E2; [|done].
      apply _dedupe_query_params_lookup in E2 as [E2 _]. congruence. }
  split; [|split; [|split]].
  - intros url params. apply map_filter_subseteq.
  - exact Hkeep.
  - intros url params Hq. apply map_eq. intros k. apply Hkeep.
    unfold query_dict, Url.parse_qs, Url.parse_qsl. rewrite Hq. cbn.
    by rewrite omap_empty, lookup_empty.
  - intros url. unfold _dedupe_query_params. cbn. apply map_filter_empty.
Qed.

Lemma dedupe_only_removes_witness :
  _dedupe_query_params "http://x/path#frag?a=1" (Some {[ "a" := "1" ]}) = {[ "a" := "1" ]}.
Proof.
  exact (proj1 (proj2 (proj2 dedupe_only_removes)) "http://x/path#frag?a=1"
           (Some {[ "a" := "1" ]}) eq_refl).
Defined.

(** X7.  Deduplicating twice is deduplicating once. *)
Theorem dedupe_idempotent (url : string) (params : option (gmap string string)) :
  _dedupe_query_params url (Some (_dedupe_query_params url params))
  = _dedupe_query_params url params.
Proof.
  apply map_eq. intros k.
  destruct (_dedupe_query_params url params !! k) as [v|] eqn:E.
  - apply _dedupe_query_params_lookup. cbn. split; [done|].
    by apply _dedupe_query_params_lookup in E as [_ E].
  - destruct (_dedupe_query_params url (Some _) !! k) as [v|] eqn:E2; [|done].
    apply _dedupe_query_params_lookup in E2 as [E2 _]. cbn in E2. congruence.
Qed.

(** X8.  A prepared request never carries both bodies, and carries none
    unless the method is one of GET, POST, PUT and PATCH; [json] goes in when
    it is not empty, [data] when it is not empty and [json] is.  Preparing
    creates exactly one object and touches nothing else of the state; the
    method of the request is the given one in upper case, and its URL is what
    the session prepares from the given URL and the query parameters (the
    given ones, without the duplicates of the URL when these are to be
    removed). *)
Theorem prepared_request_has_at_most_one_body
    (self : HttpClient) (http_method url : string) (dedupe_query_params : bool)
    (headers params json : option (gmap string string)) (data : option BodyData)
    (st st' : ClientState) (request : PreparedRequest) :
  _create_prepared_request self http_method url dedupe_query_params headers params json data
    st
  = (Returned request, st') →
  (req_json request = None ∨ req_data request = None)
  ∧ (Py.upper http_method ∉ BODY_REQUEST_METHODS →
     req_json request = None ∧ req_data request = None)
  ∧ (Py.upper http_method ∈ BODY_REQUEST_METHODS →
     req_json request = (if Py.truthy_map json then json else None)
     ∧ req_data request = (if Py.truthy_map json then None
                           else if truthy_data data then data else None))
  ∧ req_method request = Py.upper http_method
  ∧ req_params request
    = (if dedupe_query_params then _dedupe_query_params url params else default ∅ params)
  ∧ req_url request = session_prepare_url (_session self) url (req_params request)
  ∧ req_id request = allocated st
  ∧ st' = (allocate st).2.
Proof.
  unfold _create_prepared_request.
  destruct (bool_decide_reflect (Py.upper http_method ∈ BODY_REQUEST_METHODS)) as [Hin|Hout].
  - destruct (Py.truthy_map json) eqn:Hj; cbn [andb].
    + destruct (truthy_data data) eqn:Hd; [discriminate|].
      intros [= <- <-]. cbn. repeat split; auto; (intros; done).
    + destruct (truthy_data data) eqn:Hd; intros [= <- <-]; cbn;
        repeat split; auto; (intros; done).
  - intros [= <- <-]. cbn. repeat split; auto; (intros; done).
Qed.

Lemma prepared_request_has_at_most_one_body_witness :
  ∃ request st',
    _create_prepared_request failing_client "post" "http://x/?a=1" true None
      (Some {[ "a" := "1"; "b" := "2" ]}) (Some {[ "k" := "v" ]}) None initial_state
    = (Returned request, st')
    ∧ req_method request = "POST"
    ∧ req_url request = "http://x/?a=1&b=2"
    ∧ req_json request = Some {[ "k" := "v" ]}
    ∧ req_data request = None.
Proof.
  destruct (_create_prepared_request _ _ _ _ _ _ _ _ _) as [[request|e] st'] eqn:E;
    [|vm_compute in E; discriminate].
  destruct (prepared_request_has_at_most_one_body _ _ _ _ _ _ _ _ _ _ _ E)
    as (_ & _ & Hbody & Hmethod & Hparams & Hurl & _).
  destruct Hbody as [Hjson Hdata]; [vm_compute; set_solver|].
  exists request, st'. split; [reflexivity|].
  split; [exact Hmethod|]. split; [|split; [exact Hjson | exact Hdata]].
  rewrite Hurl, Hparams. by vm_compute.
Defined.

(** ** The dictionary of counters over the life of the client *)

Lemma tracked_initial_state : tracked initial_state.
Proof.
  intros k. cbn. rewrite lookup_empty. split; [by intros [? ?] | lia].
Qed.

Lemma tracked_wf st : tracked st → wf_state st.
Proof. intros H k Hk. by apply H. Qed.

(** X9.  The dictionary of counters never loses an entry.  If it holds a
    counter for each request created so far, it still does after a call of
    [send_request], whatever the result of the call: the number of entries is
    the number of requests ever prepared. *)
Theorem counters_are_never_released
    (self : HttpClient) (http_method url : string) (request_kwargs : gmap string string)
    (headers params json : option (gmap string string)) (data : option BodyData)
    (dedupe_query_params : bool) (fuel : nat) (st : ClientState)
    (r : result (PreparedRequest * option Response)) (st' : ClientState) :
  tracked st →
  send_request fuel self http_method url request_kwargs headers params json data
    dedupe_query_params st = Some (r, st') →
  tracked st'
  ∧ _request_attempt_count st ⊆ _request_attempt_count st'
  ∧ size (_request_attempt_count st') = allocated st'.
Proof.
  intros Htracked Hrun.
  assert (Hsize : ∀ s, tracked s → size (_request_attempt_count s) = allocated s).
  { intros s Hs. rewrite <- size_dom.
    replace (dom (_request_attempt_count s)) with (set_seq (C := gset nat) 0 (allocated s)).
    - apply size_set_seq.
    - apply set_eq. intros k. rewrite elem_of_set_seq, elem_of_dom, (Hs k). lia. }
  destruct (send_request_result self http_method url request_kwargs headers params json data
              dedupe_query_params fuel st r st' (tracked_wf st Htracked) Hrun)
    as [[-> _] | (Hfresh & Halloc & _ & Hmap & _)].
  { split; [done|]. split; [done|]. by apply Hsize. }
  assert (Htracked' : tracked st').
  { intros k. rewrite Hmap, Halloc.
    destruct (decide (k = allocated st)) as [->|Hne].
    - rewrite lookup_insert_eq. split; [lia | eauto].
    - rewrite lookup_insert_ne by done. rewrite (Htracked k). lia. }
  split; [done|]. split; [|by apply Hsize].
  rewrite Hmap. by apply insert_subseteq.
Qed.

Lemma counters_are_never_released_witness :
  ∃ r st',
    send_request 1 (example_client (constant_handler SUCCEED Absent) [] (inl response_200))
      "GET" "http://x/" ∅ None None None None false initial_state = Some (r, st')
    ∧ size (_request_attempt_count st') = allocated st'.
Proof.
  destruct (send_request _ _ _ _ _ _ _ _ _ _ _) as [[r st']|] eqn:E;
    [|vm_compute in E; discriminate].
  exists r, st'. split; [done|].
  exact (proj2 (proj2 (counters_are_never_released _ _ _ _ _ _ _ _ _ _ _ _ _
                         tracked_initial_state E))).
Defined.

(** * Properties of the Mixpanel streams *)

(** ** The order of texts *)

Lemma str_lt_irrefl a : ¬ OrdersEx.String_as_OT.lt a a.
Proof. apply (StrictOrder_Irreflexive (R := OrdersEx.String_as_OT.lt)). Qed.

Lemma str_lt_trans a b c :
  OrdersEx.String_as_OT.lt a b → OrdersEx.String_as_OT.lt b c → OrdersEx.String_as_OT.lt a c.
Proof. apply (StrictOrder_Transitive (R := OrdersEx.String_as_OT.lt)). Qed.

Lemma str_gt_spec a b :
  str_gt a b = true ↔ OrdersEx.String_as_OT.lt b a.
Proof.
  unfold str_gt.
  destruct (OrdersEx.String_as_OT.compare_spec a b) as [Heq|Hlt|Hgt].
  - red in Heq. subst. split; [done|]. intros H. by apply str_lt_irrefl in H.
  - split; [done|]. intros H. destruct (str_lt_irrefl a). by eapply str_lt_trans.
  - done.
Qed.

Lemma str_total a b : a = b ∨ OrdersEx.String_as_OT.lt a b ∨ OrdersEx.String_as_OT.lt b a.
Proof. destruct (OrdersEx.String_as_OT.compare_spec a b) as [H|H|H]; auto. Qed.

Lemma str_max_cases a b :
  (str_gt b a = true ∧ str_max a b = b) ∨ (str_gt b a = false ∧ str_max a b = a).
Proof. unfold str_max. destruct (str_gt b a); auto. Qed.

Lemma str_gt_false a b :
  str_gt a b = false ↔ a = b ∨ OrdersEx.String_as_OT.lt a b.
Proof.
  split.
  - intros H. destruct (str_total a b) as [->|[Hlt|Hlt]]; auto.
    apply str_gt_spec in Hlt. congruence.
  - intros [->|Hlt]; destruct (str_gt _ _) eqn:E; try done; apply str_gt_spec in E.
    + by apply str_lt_irrefl in E.
    + destruct (str_lt_irrefl a). by eapply str_lt_trans.
Qed.

Lemma str_max_comm a b : str_max a b = str_max b a.
Proof.
  unfold str_max.
  destruct (str_gt b a) eqn:E1, (str_gt a b) eqn:E2; try done.
  - apply str_gt_spec in E1, E2. destruct (str_lt_irrefl a). by eapply str_lt_trans.
  - apply str_gt_false in E1 as [->|E1]; [done|].
    apply str_gt_false in E2 as [->|E2]; [done|].
    destruct (str_lt_irrefl a). by eapply str_lt_trans.
Qed.

Ltac str_order :=
  exfalso;
  repeat match goal with
         | H1 : OrdersEx.String_as_OT.lt ?x ?y, H2 : OrdersEx.String_as_OT.lt ?y ?z |- _ =>
             lazymatch goal with
             | _ : OrdersEx.String_as_OT.lt x z |- _ => fail
             | _ => pose proof (str_lt_trans x y z H1 H2)
             end
         end;
  match goal with
  | H : OrdersEx.String_as_OT.lt ?x ?x |- _ => exact (str_lt_irrefl x H)
  end.

Lemma str_max_assoc a b c : str_max (str_max a b) c = str_max a (str_max b c).
Proof.
  unfold str_max.
  destruct (str_gt b a) eqn:Eba, (str_gt c b) eqn:Ecb, (str_gt c a) eqn:Eca;
    rewrite ?Eba, ?Ecb, ?Eca; try done;
    repeat match goal with
           | H : str_gt _ _ = true |- _ => apply str_gt_spec in H
           | H : str_gt _ _ = false |- _ => apply str_gt_false in H as [?|H]; subst
           end; try done; str_order.
Qed.

(** ** The state of an incremental stream *)

Section UpdatedState.

Import Mixpanel.

Variable self : Stream.

Local Abbreviation step state record :=
  (IncrementalMixpanelStream.get_updated_state self (Some state) record).

(** The date a state stands for, and the date of a record. *)
Local Abbreviation date_of state :=
  (default (Date.isoformat (start_date self)) (state !! "date")).
Local Abbreviation cursor_of record :=
  (default (Date.isoformat (start_date self)) (record !! cursor_field self)).

Lemma get_updated_state_step (state record : gmap string string) :
  step state record = {[ "date" := str_max (date_of state) (cursor_of record) ]}.
Proof. reflexivity. Qed.

Lemma date_of_step (state record : gmap string string) :
  date_of (step state record) = str_max (date_of state) (cursor_of record).
Proof. rewrite get_updated_state_step. by rewrite lookup_singleton_eq. Qed.

(** X10.  [get_updated_state] returns a state with the single key [date],
    whose value is the later, in the order of texts, of the date of the
    current state and the cursor value of the record; a missing state, an
    empty state, a state without [date] and a record without the cursor field
    all count as the start date. *)
Theorem updated_state_is_the_later_date
    (current_stream_state : option (gmap string string))
    (latest_record : gmap string string) :
  let current := date_of (default ∅ current_stream_state) in
  let latest := cursor_of latest_record in
  ∃ date,
    IncrementalMixpanelStream.get_updated_state self current_stream_state latest_record
    = {[ "date" := date ]}
    ∧ (date = current ∨ date = latest)
    ∧ str_gt current date = false
    ∧ str_gt latest date = false
    ∧ (current_stream_state = None ∨ current_stream_state = Some ∅ →
       current = Date.isoformat (start_date self)).
Proof.
  cbn zeta. eexists. split; [reflexivity|].
  set (current := date_of (default ∅ current_stream_state)).
  set (latest := cursor_of latest_record).
  split; [|split; [|split]].
  - destruct (str_max_cases current latest) as [[_ ->] | [_ ->]]; auto.
  - destruct (str_max_cases current latest) as [[H ->] | [_ ->]].
    + apply str_gt_spec in H. apply str_gt_false. auto.
    + apply str_gt_false. auto.
  - destruct (str_max_cases current latest) as [[_ ->] | [H ->]].
    + apply str_gt_false. auto.
    + done.
  - intros [-> | ->]; unfold current; cbn; by rewrite lookup_empty.
Qed.

(** X11.  The state reached after a batch of records does not depend on the
    order of the records, a record seen twice counts once, and the date of
    the state never goes back. *)
Theorem updated_state_does_not_depend_on_order :
  (∀ (records records' : list (gmap string string)) (state : gmap string string),
      records ≡ₚ records' →
      foldl (λ s r, step s r) state records = foldl (λ s r, step s r) state records')
  ∧ (∀ (state record : gmap string string),
        step (step state record) record = step state record)
  ∧ (∀ (state record : gmap string string),
        str_gt (date_of state) (date_of (step state record)) = false).
Proof.
  assert (Hswap : ∀ state r1 r2, step (step state r1) r2 = step (step state r2) r1).
  { intros state r1 r2.
    rewrite (get_updated_state_step (step state r1)), (get_updated_state_step (step state r2)).
    rewrite !date_of_step.
    rewrite !str_max_assoc. by rewrite (str_max_comm (cursor_of r1)). }
  split; [|split].
  - intros records records' state Hperm. revert state.
    induction Hperm as [|x l l' _ IH|x y l|l l' l'' _ IH1 _ IH2]; intros state; cbn.
    + done.
    + apply IH.
    + by rewrite Hswap.
    + by rewrite IH1.
  - intros state record.
    rewrite (get_updated_state_step (step state record)), date_of_step.
    rewrite get_updated_state_step. f_equal.
    rewrite str_max_assoc. f_equal.
    unfold str_max. by destruct (str_gt _ _).
  - intros state record. rewrite date_of_step.
    destruct (str_max_cases (date_of state) (cursor_of record)) as [[H ->] | [_ ->]].
    + apply str_gt_spec in H. apply str_gt_false. auto.
    + apply str_gt_false. auto.
Qed.

End UpdatedState.

Lemma updated_state_is_the_later_date_witness :
  ∃ date,
    Mixpanel.IncrementalMixpanelStream.get_updated_state example_stream None ∅
    = {[ "date" := date ]}
    ∧ date = "2020-01-01".
Proof.
  destruct (updated_state_is_the_later_date example_stream None ∅)
    as (date & Hstate & [Hdate | Hdate] & _ & _ & Hstart);
    exists date; (split; [exact Hstate|]); rewrite Hdate.
  - rewrite Hstart by (by left). reflexivity.
  - reflexivity.
Defined.

Lemma updated_state_does_not_depend_on_order_witness :
  foldl (λ s r, Mixpanel.IncrementalMixpanelStream.get_updated_state example_stream (Some s) r)
    ∅ [{[ "date" := "2020-02-01" ]}; {[ "date" := "2020-01-15" ]}]
  = foldl (λ s r, Mixpanel.IncrementalMixpanelStream.get_updated_state example_stream (Some s) r)
      ∅ [{[ "date" := "2020-01-15" ]}; {[ "date" := "2020-02-01" ]}].
Proof.
  apply (proj1 (updated_state_does_not_depend_on_order example_stream)).
  apply Permutation_swap.
Defined.

(** ** Date slices *)

Section DateSlices.

Import Mixpanel.

Variable fromisoformat_date : string → py Z.
Variable self : Stream.

Local Abbreviation last_day := (end_date self).
Local Abbreviation size := (date_window_size self).

Lemma expected_windows_nil first :
  (1 ≤ size)%Z → (last_day < first)%Z → expected_windows first last_day size = [].
Proof.
  intros Hsize Hlt. unfold expected_windows.
  assert (((last_day - first + size) / size < 1)%Z)
    by (apply Z.div_lt_upper_bound; lia).
  rewrite seqZ_nil by lia. done.
Qed.

Lemma expected_windows_cons first :
  (1 ≤ size)%Z → (first ≤ last_day)%Z →
  expected_windows first last_day size
  = (first, Z.min (first + size - 1) last_day)
      :: expected_windows (first + size) last_day size.
Proof.
  intros Hsize Hle. unfold expected_windows.
  replace (last_day - first + size)%Z with (last_day - first + 1 * size)%Z by lia.
  rewrite Z.div_add by lia.
  replace (last_day - (first + size) + size)%Z with (last_day - first)%Z by lia.
  assert (0 ≤ (last_day - first) / size)%Z by (apply Z.div_pos; lia).
  rewrite seqZ_cons by lia. cbn [fmap list_fmap].
  f_equal; [f_equal; lia|].
  replace (Z.pred ((last_day - first) / size + 1)) with ((last_day - first) / size)%Z by lia.
  change (Z.succ 0) with (1 + 0)%Z. rewrite <- fmap_add_seqZ, <- list_fmap_compose.
  apply list_fmap_ext. intros _ i _. cbn. f_equal; [|f_equal]; lia.
Qed.

(** The loop, as long as no date leaves the calendar. *)
Lemma slices_loop_windows fuel : ∀ start acc,
  (1 ≤ size ≤ 1000000000)%Z →
  (last_day + size ≤ Date.MAXORDINAL)%Z →
  (1 ≤ start)%Z →
  (Z.max 0 ((last_day - start + size) / size) < Z.of_nat fuel)%Z →
  DateSlicesMixin.slices_loop fuel self start acc
  = Some (Ret (acc ++ ((λ w, DateSlicesMixin.slice_of w.1 w.2)
                         <$> expected_windows start last_day size))%list).
Proof.
  induction fuel as [|fuel IH]; intros start acc Hsize Hmax Hstart Hfuel; [lia|].
  cbn [DateSlicesMixin.slices_loop].
  destruct (Z.leb_spec start last_day) as [Hle|Hgt].
  - unfold Date.timedelta.
    rewrite (proj2 (Z.leb_le (Z.abs (size - 1)) 999999999)) by lia.
    rewrite (proj2 (Z.leb_le (Z.abs 1) 999999999)) by lia.
    cbn [mbind py_bind]. unfold Date.add.
    rewrite (proj2 (Z.leb_le 1 (start + (size - 1)))) by lia.
    rewrite (proj2 (Z.leb_le (start + (size - 1)) Date.MAXORDINAL)) by lia.
    cbn [andb].
    rewrite (proj2 (Z.leb_le 1 (start + (size - 1) + 1))) by lia.
    rewrite (proj2 (Z.leb_le (start + (size - 1) + 1) Date.MAXORDINAL)) by lia.
    cbn [andb].
    rewrite expected_windows_cons by lia.
    replace (start + (size - 1) + 1)%Z with (start + size)%Z by lia.
    rewrite IH; [| lia | lia | lia |].
    + cbn [fmap list_fmap fst snd]. rewrite <- app_assoc. cbn [app].
      replace (start + (size - 1))%Z with (start + size - 1)%Z by lia. done.
    + revert Hfuel.
      replace (last_day - start + size)%Z with (last_day - start + 1 * size)%Z by lia.
      rewrite Z.div_add by lia.
      replace (last_day - (start + size) + size)%Z with (last_day - start)%Z by lia.
      assert (0 ≤ (last_day - start) / size)%Z by (apply Z.div_pos; lia). lia.
  - rewrite expected_windows_nil by lia. by rewrite app_nil_r.
Qed.

(** [date_slices], as long as no date leaves the calendar. *)
Lemma date_slices_run fuel stream_state stream_state_date :
  DateSlicesMixin.state_date fromisoformat_date stream_state = Ret stream_state_date →
  (Z.abs (attribution_window self) ≤ 999999999)%Z →
  (1 ≤ first_day self stream_state_date ≤ Date.MAXORDINAL)%Z →
  (1 ≤ size ≤ 1000000000)%Z →
  (last_day + size ≤ Date.MAXORDINAL)%Z →
  (Z.max 0 ((last_day - first_day self stream_state_date + size) / size) < Z.of_nat fuel)%Z →
  DateSlicesMixin.date_slices fromisoformat_date fuel self stream_state
  = Some (Ret ((λ w, DateSlicesMixin.slice_of w.1 w.2)
                 <$> expected_windows (first_day self stream_state_date) last_day size)).
Proof.
  intros Hstate Hattr Hfirst Hsize Hmax Hfuel.
  unfold DateSlicesMixin.date_slices. rewrite Hstate.
  unfold Date.timedelta. rewrite (proj2 (Z.leb_le _ _) Hattr). cbn [mbind py_bind].
  unfold Date.add, first_day in *.
  rewrite (proj2 (Z.leb_le 1 _)) by lia.
  rewrite (proj2 (Z.leb_le _ Date.MAXORDINAL)) by lia.
  cbn [andb].
  rewrite slices_loop_windows; [done | lia | lia | lia |].
  revert Hfuel. by rewrite Z.add_opp_r.
Qed.

End DateSlices.

(** X12.  With a window of at least one day, and as long as no date leaves
    the calendar, [date_slices] returns: window number [i] starts
    [i × date_window_size] days after the first day and ends
    [date_window_size - 1] days later, or on the end date if that comes
    first; there are [(end - first + size) / size] windows, the number of
    days from the first day to the end date divided by the size of the
    window, rounded up. *)
Theorem date_slices_are_the_expected_windows
    (fromisoformat_date : string → py Z) (self : Mixpanel.Stream) (fuel : nat)
    (stream_state : option (gmap string string)) (stream_state_date : option Z) :
  let first := first_day self stream_state_date in
  let last := Mixpanel.end_date self in
  let size := Mixpanel.date_window_size self in
  Mixpanel.DateSlicesMixin.state_date fromisoformat_date stream_state = Ret stream_state_date →
  (Z.abs (Mixpanel.attribution_window self) ≤ 999999999)%Z →
  (1 ≤ first ≤ Date.MAXORDINAL)%Z →
  (1 ≤ size ≤ 1000000000)%Z →
  (last + size ≤ Date.MAXORDINAL)%Z →
  (Z.max 0 ((last - first + size) / size) < Z.of_nat fuel)%Z →
  ∃ slices,
    Mixpanel.DateSlicesMixin.date_slices fromisoformat_date fuel self stream_state
    = Some (Ret slices)
    ∧ Z.of_nat (length slices) = Z.max 0 ((last - first + size) / size)
    ∧ ∀ i : nat, (i < length slices)%nat →
        slices !! i
        = Some [("start_date", JStr (Date.isoformat (first + Z.of_nat i * size)));
                ("end_date",
                 JStr (Date.isoformat (Z.min (first + Z.of_nat i * size + size - 1) last)))].
Proof.
  intros first last size Hstate Hattr Hfirst Hsize Hmax Hfuel.
  eexists. split; [by apply date_slices_run|].
  unfold expected_windows. rewrite !length_fmap, length_seqZ.
  clear Hfuel. subst first last size.
  set (count := (_ / _)%Z). clearbody count.
  split; [lia|].
  intros i Hi. rewrite list_lookup_fmap, list_lookup_fmap, lookup_seqZ_lt by lia.
  cbn. unfold Mixpanel.DateSlicesMixin.slice_of. by rewrite Z.add_0_l.
Qed.

Lemma date_slices_are_the_expected_windows_witness :
  ∃ slices,
    Mixpanel.DateSlicesMixin.date_slices example_fromisoformat_date 4 example_stream
      (Some {[ "date" := "2020-01-10" ]}) = Some (Ret slices)
    ∧ Z.of_nat (length slices) = 3%Z
    ∧ ∀ i : nat, (i < length slices)%nat →
        slices !! i
        = Some [("start_date", JStr (Date.isoformat (737429 + Z.of_nat i * 30)));
                ("end_date",
                 JStr (Date.isoformat (Z.min (737429 + Z.of_nat i * 30 + 30 - 1) 737495)))].
Proof.
  apply (date_slices_are_the_expected_windows example_fromisoformat_date example_stream 4
           (Some {[ "date" := "2020-01-10" ]}) (Some 737434%Z)).
  - by vm_compute.
  - by vm_compute.
  - by vm_compute.
  - by vm_compute.
  - by vm_compute.
  - by vm_compute.
Defined.

(** X13.  Under the same conditions the slices cut the days from the first
    day to the end date into consecutive windows: every such day, and no
    other, lies in a window; a later window starts after an earlier one has
    ended; and no window is longer than [date_window_size] days. *)
Theorem date_slices_partition_the_days
    (fromisoformat_date : string → py Z) (self : Mixpanel.Stream) (fuel : nat)
    (stream_state : option (gmap string string)) (stream_state_date : option Z) :
  let first := first_day self stream_state_date in
  let last := Mixpanel.end_date self in
  let size := Mixpanel.date_window_size self in
  Mixpanel.DateSlicesMixin.state_date fromisoformat_date stream_state = Ret stream_state_date →
  (Z.abs (Mixpanel.attribution_window self) ≤ 999999999)%Z →
  (1 ≤ first ≤ Date.MAXORDINAL)%Z →
  (1 ≤ size ≤ 1000000000)%Z →
  (last + size ≤ Date.MAXORDINAL)%Z →
  (Z.max 0 ((last - first + size) / size) < Z.of_nat fuel)%Z →
  ∃ windows : list (Z * Z),
    Mixpanel.DateSlicesMixin.date_slices fromisoformat_date fuel self stream_state
    = Some (Ret ((λ w, Mixpanel.DateSlicesMixin.slice_of w.1 w.2) <$> windows))
    ∧ (∀ day, (first ≤ day ≤ last)%Z ↔ ∃ w, w ∈ windows ∧ (w.1 ≤ day ≤ w.2)%Z)
    ∧ (∀ (i j : nat) wi wj,
          windows !! i = Some wi → windows !! j = Some wj → (i < j)%nat → (wi.2 < wj.1)%Z)
    ∧ (∀ w, w ∈ windows → (0 ≤ w.2 - w.1 < size)%Z).
Proof.
  intros first last size Hstate Hattr Hfirst Hsize Hmax Hfuel.
  exists (expected_windows first last size).
  split; [by apply date_slices_run|].
  unfold expected_windows.
  set (count := ((last - first + size) / size)%Z).
  assert (Hcount : ∀ i, (0 ≤ i < count)%Z ↔ (0 ≤ i)%Z ∧ (first + i * size ≤ last)%Z).
  { intros i. unfold count.
    replace (last - first + size)%Z with (last - first + 1 * size)%Z by lia.
    rewrite Z.div_add by lia.
    pose proof (Z.mul_div_le (last - first) size ltac:(lia)).
    pose proof (Z.mul_succ_div_gt (last - first) size ltac:(lia)).
    split; intros [H1 H2]; (split; [lia|]); nia. }
  split; [|split].
  - intros day. split.
    + intros [Hlo Hhi].
      exists (first + (day - first) / size * size,
              Z.min (first + (day - first) / size * size + size - 1) last)%Z.
      pose proof (Z.mul_div_le (day - first) size ltac:(lia)).
      pose proof (Z.mul_succ_div_gt (day - first) size ltac:(lia)).
      assert (0 ≤ (day - first) / size)%Z by (apply Z.div_pos; lia).
      split; [|cbn; lia].
      apply list_elem_of_fmap. exists ((day - first) / size)%Z. split; [done|].
      apply elem_of_seqZ. apply (proj2 (Hcount _)). lia.
    + intros ([lo hi] & Hin & Hday). cbn in Hday.
      apply list_elem_of_fmap in Hin as (i & [= -> ->] & Hi).
      apply elem_of_seqZ, Hcount in Hi. nia.
  - intros i j wi wj Hi Hj Hlt.
    rewrite list_lookup_fmap in Hi, Hj.
    destruct (seqZ 0 count !! i) as [zi|] eqn:Ei; [|done].
    destruct (seqZ 0 count !! j) as [zj|] eqn:Ej; [|done].
    apply lookup_seqZ in Ei as [-> _]. apply lookup_seqZ in Ej as [-> _].
    injection Hi as <-. injection Hj as <-. cbn. nia.
  - intros [lo hi] Hin. cbn.
    apply list_elem_of_fmap in Hin as (i & [= -> ->] & Hi).
    apply elem_of_seqZ, Hcount in Hi. lia.
Qed.

Lemma date_slices_partition_the_days_witness :
  ∃ windows : list (Z * Z),
    Mixpanel.DateSlicesMixin.date_slices example_fromisoformat_date 4 example_stream None
    = Some (Ret ((λ w, Mixpanel.DateSlicesMixin.slice_of w.1 w.2) <$> windows))
    ∧ (∀ day, (737420 ≤ day ≤ 737495)%Z ↔ ∃ w, w ∈ windows ∧ (w.1 ≤ day ≤ w.2)%Z)
    ∧ (∀ (i j : nat) wi wj,
          windows !! i = Some wi → windows !! j = Some wj → (i < j)%nat → (wi.2 < wj.1)%Z)
    ∧ (∀ w, w ∈ windows → (0 ≤ w.2 - w.1 < 30)%Z).
Proof.
  apply (date_slices_partition_the_days example_fromisoformat_date example_stream 4
           None None).
  - reflexivity.
  - by vm_compute.
  - by vm_compute.
  - by vm_compute.
  - by vm_compute.
  - by vm_compute.
Defined.

Lemma timedelta_Ret n d : Date.timedelta n = Ret d → d = n.
Proof. unfold Date.timedelta. destruct (_ <=? _)%Z; congruence. Qed.

Lemma date_add_Ret d n r :
  Date.add d n = Ret r → r = (d + n)%Z ∧ (1 ≤ r ≤ Date.MAXORDINAL)%Z.
Proof.
  unfold Date.add.
  destruct (Z.leb_spec 1 (d + n)), (Z.leb_spec (d + n) Date.MAXORDINAL); cbn;
    intros [= <-]; lia.
Qed.

Lemma date_add_in_range d n :
  (1 ≤ d + n ≤ Date.MAXORDINAL)%Z → Date.add d n = Ret (d + n)%Z.
Proof.
  intros H. unfold Date.add.
  rewrite (proj2 (Z.leb_le 1 _)), (proj2 (Z.leb_le _ Date.MAXORDINAL)) by lia. done.
Qed.

(** With a window of no days the loop never leaves: the start date does not
    move forward. *)
Lemma slices_loop_never_returns (self : Mixpanel.Stream) fuel : ∀ start acc slices,
  (Mixpanel.date_window_size self ≤ 0)%Z →
  (start ≤ Mixpanel.end_date self)%Z →
  Mixpanel.DateSlicesMixin.slices_loop fuel self start acc ≠ Some (Ret slices).
Proof.
  induction fuel as [|fuel IH]; intros start acc slices Hsize Hle; [done|].
  cbn [Mixpanel.DateSlicesMixin.slices_loop].
  rewrite (proj2 (Z.leb_le _ _) Hle).
  destruct (Date.timedelta (Mixpanel.date_window_size self - 1)) as [d|] eqn:Ed;
    cbn [mbind py_bind]; [|done].
  apply timedelta_Ret in Ed as ->.
  destruct (Date.add start _) as [e|] eqn:Ee; [|done].
  apply date_add_Ret in Ee as [-> _].
  destruct (Date.timedelta 1) as [d|] eqn:Ed; cbn [mbind py_bind]; [|done].
  apply timedelta_Ret in Ed as ->.
  destruct (Date.add _ 1) as [next|] eqn:En; [|done].
  apply date_add_Ret in En as [-> _].
  apply IH; lia.
Qed.

(** X14.  With [date_window_size] zero or negative and an attribution
    window that is not negative, [date_slices] never returns a list: it
    raises or runs for ever.  With a window of exactly zero days it runs for
    ever whenever the first day is later than the first day of the calendar:
    no amount of fuel gives a result. *)
Theorem date_slices_need_a_positive_window
    (fromisoformat_date : string → py Z) (self : Mixpanel.Stream)
    (stream_state : option (gmap string string)) :
  (Mixpanel.date_window_size self ≤ 0)%Z →
  (0 ≤ Mixpanel.attribution_window self)%Z →
  (∀ fuel slices,
      Mixpanel.DateSlicesMixin.date_slices fromisoformat_date fuel self stream_state
      ≠ Some (Ret slices))
  ∧ (∀ stream_state_date,
        Mixpanel.date_window_size self = 0%Z →
        Mixpanel.DateSlicesMixin.state_date fromisoformat_date stream_state
        = Ret stream_state_date →
        (Mixpanel.attribution_window self ≤ 999999999)%Z →
        (2 ≤ first_day self stream_state_date)%Z →
        (Mixpanel.end_date self ≤ Date.MAXORDINAL)%Z →
        ∀ fuel,
          Mixpanel.DateSlicesMixin.date_slices fromisoformat_date fuel self stream_state
          = None).
Proof.
  intros Hsize Hattr. split.
  - intros fuel slices. unfold Mixpanel.DateSlicesMixin.date_slices.
    destruct (Mixpanel.DateSlicesMixin.state_date _ _) as [sd|]; [|done].
    destruct (Date.timedelta _) as [d|] eqn:Ed; cbn [mbind py_bind]; [|done].
    apply timedelta_Ret in Ed as ->.
    destruct (Date.add _ _) as [start|] eqn:Es; [|done].
    apply date_add_Ret in Es as [-> _].
    apply slices_loop_never_returns; lia.
  - intros sd Hzero Hstate Hattr' Hfirst Hlast fuel.
    unfold Mixpanel.DateSlicesMixin.date_slices. rewrite Hstate.
    unfold Date.timedelta. rewrite (proj2 (Z.leb_le _ 999999999)) by lia.
    cbn [mbind py_bind]. unfold first_day in Hfirst.
    rewrite date_add_in_range by lia.
    match goal with |- context [Mixpanel.DateSlicesMixin.slices_loop _ _ ?s _] =>
      assert (Hs : (2 ≤ s ≤ Mixpanel.end_date self)%Z) by lia; revert Hs; generalize s
    end.
    intros start. generalize (@nil (list (string * json))).
    induction fuel as [|fuel IH]; intros acc Hs; [done|].
    cbn [Mixpanel.DateSlicesMixin.slices_loop].
    rewrite (proj2 (Z.leb_le start _)) by lia.
    rewrite Hzero. change (Date.timedelta (0 - 1)) with (@Ret Z (-1)%Z).
    change (Date.timedelta 1) with (@Ret Z 1%Z).
    cbn [mbind py_bind].
    rewrite date_add_in_range by lia.
    rewrite date_add_in_range by lia.
    replace (start + -1 + 1)%Z with start by lia. apply IH. lia.
Qed.

Lemma date_slices_need_a_positive_window_witness :
  Mixpanel.DateSlicesMixin.date_slices example_fromisoformat_date 1000
    zero_window_stream None = None.
Proof.
  refine (proj2 (date_slices_need_a_positive_window example_fromisoformat_date
                   zero_window_stream None _ _)
            None eq_refl eq_refl _ _ _ 1000%nat); by vm_compute.
Defined.

(** ** Dictionaries *)

Lemma Dict_get_set_eq k v d : Dict.get k (Dict.set k v d) = Some v.
Proof.
  induction d as [|[k' v'] d IH]; cbn.
  - by rewrite String.eqb_refl.
  - destruct (String.eqb_spec k k') as [->|Hne]; cbn.
    + by rewrite String.eqb_refl.
    + by rewrite (proj2 (String.eqb_neq k k') Hne).
Qed.

Lemma Dict_get_set_ne k k' v d : k ≠ k' → Dict.get k' (Dict.set k v d) = Dict.get k' d.
Proof.
  intros Hne. induction d as [|[k0 v0] d IH]; cbn.
  - by rewrite (proj2 (String.eqb_neq k' k)).
  - destruct (String.eqb_spec k k0) as [->|Hne0]; cbn.
    + by rewrite (proj2 (String.eqb_neq k' k0)).
    + destruct (String.eqb k' k0); [done | apply IH].
Qed.

Lemma Dict_set_set k v1 v2 d : Dict.set k v2 (Dict.set k v1 d) = Dict.set k v2 d.
Proof.
  induction d as [|[k' v'] d IH]; cbn.
  - by rewrite String.eqb_refl.
  - destruct (String.eqb_spec k k') as [->|Hne]; cbn.
    + by rewrite String.eqb_refl.
    + rewrite (proj2 (String.eqb_neq k k') Hne). by rewrite IH.
Qed.

Lemma Dict_keys_set k v d :
  Dict.keys (Dict.set k v d)
  = if bool_decide (k ∈ Dict.keys d) then Dict.keys d else (Dict.keys d ++ [k])%list.
Proof.
  induction d as [|[k' v'] d IH]; [done|].
  cbn. destruct (String.eqb_spec k k') as [->|Hne]; cbn.
  - rewrite bool_decide_eq_true_2 by apply list_elem_of_here. done.
  - unfold Dict.keys in *. rewrite IH.
    destruct (bool_decide_reflect (k ∈ map fst d)) as [Hin|Hout].
    + rewrite bool_decide_eq_true_2 by (by apply list_elem_of_further). done.
    + rewrite bool_decide_eq_false_2; [done|]. rewrite not_elem_of_cons. done.
Qed.

(** ** Stream slices *)

Section StreamSlices.

Import Mixpanel.

(** The slices of the projects whose identifiers are [ids], as [__init__]
    builds them. *)
Local Abbreviation slices_for ids :=
  ((λ id : json, [("project_id", id)]) <$> ids).

Lemma yield_per_project_ids ref (ids : list json) : ∀ date_slice,
  DateSlicesMixin.yield_per_project ref date_slice (Some <$> slices_for ids)
  = ((λ id, (ref, Dict.set "project_id" id date_slice)) <$> ids,
     match last ids with
     | Some id => Dict.set "project_id" id date_slice
     | None => date_slice
     end).
Proof.
  induction ids as [|id rest IH]; intros date_slice; [done|].
  cbn [fmap list_fmap DateSlicesMixin.yield_per_project].
  change (Dict.update date_slice [("project_id", id)])
    with (Dict.set "project_id" id date_slice).
  rewrite IH. f_equal.
  - f_equal. apply list_fmap_ext. intros _ id' _. by rewrite Dict_set_set.
  - rewrite last_cons. destruct (last rest); [|done]. by rewrite Dict_set_set.
Qed.

Lemma yield_all_ids (ids : list json) slices : ∀ ref,
  DateSlicesMixin.yield_all ref slices (Some <$> slices_for ids)
  = (mjoin (imap (λ i d, (λ id, ((ref + i)%nat, Dict.set "project_id" id d)) <$> ids) slices),
     (λ d, match last ids with
           | Some id => Dict.set "project_id" id d
           | None => d
           end) <$> slices).
Proof.
  induction slices as [|d rest IH]; intros ref; [done|].
  cbn [DateSlicesMixin.yield_all]. rewrite yield_per_project_ids, IH.
  cbn [imap mjoin list_join fmap list_fmap]. rewrite Nat.add_0_r. f_equal. f_equal. f_equal.
  apply imap_ext. intros i d' _. cbn. apply list_fmap_ext. intros _ id _.
  f_equal. lia.
Qed.

Lemma yield_all_without_projects slices : ∀ ref,
  DateSlicesMixin.yield_all ref slices [None]
  = (imap (λ i d, ((ref + i)%nat, d)) slices, slices).
Proof.
  induction slices as [|d rest IH]; intros ref; [done|].
  cbn [DateSlicesMixin.yield_all DateSlicesMixin.yield_per_project]. rewrite IH.
  cbn [imap app]. rewrite Nat.add_0_r. f_equal. f_equal.
  apply imap_ext. intros i d' _. cbn. f_equal. lia.
Qed.

End StreamSlices.

(** X15.  [stream_slices] creates one dictionary per date slice and yields
    that same object once per project, after writing the project into it.
    So there are as many yields as date slices times projects, in the order
    of the date slices and, within one, of the projects; each yield shows, at
    the moment it is made, the dates of its slice and the identifier of its
    project; and once the generator is exhausted every object that was
    yielded shows the identifier of the last project.  Without projects each
    date slice is yielded once, unchanged. *)
Theorem stream_slices_yield_one_object_per_date_slice
    (fromisoformat_date : string → py Z) (self : Mixpanel.Stream) (fuel : nat)
    (stream_state : option (gmap string string)) (slices : list (list (string * json))) :
  Mixpanel.DateSlicesMixin.date_slices fromisoformat_date fuel self stream_state
  = Some (Ret slices) →
  (∀ ids last_id,
      Mixpanel.projects self = Some ((λ id : json, [("project_id", id)]) <$> ids) →
      last ids = Some last_id →
      ∃ yielded heap,
        Mixpanel.DateSlicesMixin.stream_slices fromisoformat_date fuel self stream_state
        = Some (Ret (yielded, heap))
        ∧ yielded
          = mjoin (imap (λ ref d, (λ id, (ref, Dict.set "project_id" id d)) <$> ids) slices)
        ∧ length yielded = (length slices * length ids)%nat
        ∧ heap = Dict.set "project_id" last_id <$> slices
        ∧ ∀ ref snapshot,
            (ref, snapshot) ∈ yielded →
            ∃ d id,
              slices !! ref = Some d
              ∧ id ∈ ids
              ∧ snapshot = Dict.set "project_id" id d
              ∧ heap !! ref = Some (Dict.set "project_id" last_id d))
  ∧ (Mixpanel.projects self = None →
     Mixpanel.DateSlicesMixin.stream_slices fromisoformat_date fuel self stream_state
     = Some (Ret (imap (λ ref d, (ref, d)) slices, slices))).
Proof.
  intros Hslices. split.
  - intros ids last_id Hprojects Hlast.
    assert (Hps : Mixpanel.ProjectSlicesMixin.stream_slices self
                  = Some <$> ((λ id : json, [("project_id", id)]) <$> ids)).
    { unfold Mixpanel.ProjectSlicesMixin.stream_slices. rewrite Hprojects.
      destruct ids; [done|]. reflexivity. }
    eexists _, _. split.
    { unfold Mixpanel.DateSlicesMixin.stream_slices. rewrite Hslices, Hps.
      rewrite yield_all_ids. rewrite Hlast. reflexivity. }
    cbn [Nat.add]. split; [done|]. split; [|split; [done|]].
    + rewrite length_join.
      rewrite (sum_list_fmap_same (length ids)); [by rewrite length_imap|].
      apply Forall_forall. intros l Hl.
      apply elem_of_lookup_imap_1 in Hl as (i & d & -> & _). by rewrite length_fmap.
    + intros ref snapshot Hin.
      apply list_elem_of_join in Hin as (l & Hin & Hl).
      apply elem_of_lookup_imap_1 in Hl as (i & d & -> & Hd).
      apply list_elem_of_fmap in Hin as (id & [= -> ->] & Hid).
      exists d, id. repeat split; auto.
      by rewrite list_lookup_fmap, Hd.
  - intros Hnone.
    unfold Mixpanel.DateSlicesMixin.stream_slices, Mixpanel.ProjectSlicesMixin.stream_slices.
    rewrite Hslices, Hnone. by rewrite yield_all_without_projects.
Qed.

Lemma stream_slices_yield_one_object_per_date_slice_witness :
  ∃ yielded heap,
    Mixpanel.DateSlicesMixin.stream_slices example_fromisoformat_date 4 example_stream None
    = Some (Ret (yielded, heap))
    ∧ length yielded = 6%nat
    ∧ heap !! 0%nat
      = Some [("start_date", JStr "2019-12-27"); ("end_date", JStr "2020-01-25");
              ("project_id", JStr "p2")].
Proof.
  destruct (Mixpanel.DateSlicesMixin.date_slices example_fromisoformat_date 4 example_stream
              None) as [[slices|]|] eqn:E; try (vm_compute in E; discriminate).
  destruct (proj1 (stream_slices_yield_one_object_per_date_slice
                     example_fromisoformat_date example_stream 4 None slices E)
              [JStr "p1"; JStr "p2"] (JStr "p2") eq_refl eq_refl)
    as (yielded & heap & Hrun & _ & Hlen & Hheap & _).
  exists yielded, heap. split; [exact Hrun|].
  vm_compute in E. injection E as <-. split; [exact Hlen | by rewrite Hheap].
Defined.

(** ** Request parameters *)

(** X16.  The request parameters of a slice are its [start_date] as
    [from_date], its [end_date] as [to_date], then its [project_id] when it has
    one, and nothing else of the slice.  Without a slice the call raises
    [TypeError]; a slice without [start_date], or with it but without
    [end_date], raises [KeyError] for the first key that is missing. *)
Theorem request_params_forward_dates_and_project :
  (∀ d from_date to_date,
      Dict.get "start_date" d = Some from_date →
      Dict.get "end_date" d = Some to_date →
      Mixpanel.DateSlicesMixin.request_params (Some d)
      = Ret ([("from_date", from_date); ("to_date", to_date)]
               ++ match Dict.get "project_id" d with
                  | Some id => [("project_id", id)]
                  | None => []
                  end)%list)
  ∧ Mixpanel.DateSlicesMixin.request_params None = Exc TypeError
  ∧ (∀ d, Dict.get "start_date" d = None →
          Mixpanel.DateSlicesMixin.request_params (Some d) = Exc (KeyError "start_date"))
  ∧ (∀ d from_date,
        Dict.get "start_date" d = Some from_date →
        Dict.get "end_date" d = None →
        Mixpanel.DateSlicesMixin.request_params (Some d) = Exc (KeyError "end_date")).
Proof.
  unfold Mixpanel.DateSlicesMixin.request_params, Dict.getitem.
  split; [|split; [done|split]].
  - intros d from_date to_date -> ->. cbn.
    by destruct (Dict.get "project_id" d).
  - by intros d ->.
  - by intros d from_date -> ->.
Qed.

Lemma request_params_forward_dates_and_project_witness :
  Mixpanel.DateSlicesMixin.request_params
    (Some (Dict.set "project_id" (JStr "p1")
             (Mixpanel.DateSlicesMixin.slice_of 737425 737454)))
  = Ret [("from_date", JStr "2020-01-01"); ("to_date", JStr "2020-01-30");
         ("project_id", JStr "p1")].
Proof.
  exact (proj1 request_params_forward_dates_and_project
           (Dict.set "project_id" (JStr "p1")
              (Mixpanel.DateSlicesMixin.slice_of 737425 737454))
           (JStr "2020-01-01") (JStr "2020-01-30") eq_refl eq_refl).
Defined.

(** ** Records of a response *)

(** X17.  Without a data field, [process_response] yields a JSON object as
    one record and the elements of a JSON array one by one, and fails with
    [UnboundLocalError] on any other document.  With a data field it yields
    the elements of the array under that key of a JSON object, nothing when
    the key is missing, and fails with [AttributeError] when the document is
    not an object.  [parse_response] yields the same; it sleeps only after a
    run without exception and only when the limit is positive, and then for
    [3600 / limit] seconds. *)
Theorem process_response_by_shape (self : Mixpanel.Stream) :
  (Mixpanel.data_field self = None →
     (∀ d, Mixpanel.process_response self (JDict d) = ([JDict d], None))
     ∧ (∀ l, Mixpanel.process_response self (JList l) = (l, None))
     ∧ (∀ doc, (∀ d, doc ≠ JDict d) → (∀ l, doc ≠ JList l) →
               Mixpanel.process_response self doc = ([], Some UnboundLocalError)))
  ∧ (∀ field,
        Mixpanel.data_field self = Some field →
        (∀ d l, Dict.get field d = Some (JList l) →
                Mixpanel.process_response self (JDict d) = (l, None))
        ∧ (∀ d, Dict.get field d = None →
                Mixpanel.process_response self (JDict d) = ([], None))
        ∧ (∀ doc, (∀ d, doc ≠ JDict d) →
                  Mixpanel.process_response self doc = ([], Some AttributeError)))
  ∧ (∀ doc,
        (Mixpanel.parse_response self doc).1 = Mixpanel.process_response self doc
        ∧ ∀ pause,
            (Mixpanel.parse_response self doc).2 = Some pause ↔
            (Mixpanel.process_response self doc).2 = None
            ∧ (0 < Mixpanel.reqs_per_hour_limit self)%Z
            ∧ pause = (3600 / inject_Z (Mixpanel.reqs_per_hour_limit self))%Q).
Proof.
  unfold Mixpanel.process_response. split; [|split].
  - intros ->. split; [done|]. split; [done|].
    intros doc Hd Hl. destruct doc; try done; [by destruct (Hl l) | by destruct (Hd d)].
  - intros field ->. split; [|split].
    + by intros d l ->.
    + by intros d ->.
    + intros doc Hd. destruct doc; try done. by destruct (Hd d).
  - intros doc. unfold Mixpanel.parse_response.
    fold (Mixpanel.process_response self doc).
    destruct (Mixpanel.process_response self doc) as [records [e|]]; cbn.
    + split; [done|]. intros pause. split; [done | by intros [? _]].
    + destruct (Z.ltb_spec 0 (Mixpanel.reqs_per_hour_limit self)); cbn.
      * split; [done|]. intros pause. split; [by intros [= <-] | by intros (_ & _ & ->)].
      * split; [done|]. intros pause. split; [done | intros (_ & ? & _); lia].
Qed.

Lemma process_response_by_shape_witness :
  Mixpanel.process_response example_stream (JNum 5) = ([], Some UnboundLocalError).
Proof.
  refine (proj2 (proj2 (proj1 (process_response_by_shape example_stream) eq_refl))
            (JNum 5) _ _); discriminate.
Defined.

(** ** The projects *)

Lemma with_ids_spec (items : list (string * json)) :
  ∃ n : nat,
    (n ≤ length items)%nat
    ∧ length (Mixpanel.Projects.with_ids items).1 = n
    ∧ (∀ i : nat, (i < n)%nat →
         ∃ project_id info,
           items !! i = Some (project_id, JDict info)
           ∧ (Mixpanel.Projects.with_ids items).1 !! i
             = Some (JDict (Dict.set "id" (JStr project_id) info)))
    ∧ ((Mixpanel.Projects.with_ids items).2 = None ∧ n = length items
       ∨ (Mixpanel.Projects.with_ids items).2 = Some TypeError
         ∧ ∃ project_id v,
             items !! n = Some (project_id, v) ∧ ∀ info, v ≠ JDict info).
Proof.
  induction items as [|[project_id v] rest (n & Hn & Hlen & Hrec & Hend)].
  { exists 0%nat. cbn. repeat split; auto. intros i Hi. lia. }
  cbn [Mixpanel.Projects.with_ids].
  destruct v as [| | | | |info];
    try (exists 0%nat; cbn; repeat split; [lia | intros i Hi; lia |];
         right; split; [done|]; eexists _, _; split; [done | discriminate]).
  destruct (Mixpanel.Projects.with_ids rest) as [records error]. cbn [fst snd] in *.
  exists (S n). cbn [length]. repeat split; [lia | by rewrite Hlen | |].
  - intros [|i] Hi; cbn; [eauto|]. apply Hrec. lia.
  - destruct Hend as [[-> ->] | [-> Hbad]]; [by left|]. by right.
Qed.

(** X18.  [Projects.parse_response] reads the object under [results] then
    [projects], an absent key counting as an empty object.  It yields the
    projects in the order of the document, each with its key written into
    the field [id], in place of an [id] the project may have had and with
    every other field untouched.  It stops with [TypeError] at the first
    project that is not an object, after yielding those before it. *)
Theorem projects_carry_their_key (doc : json) (items : list (string * json)) :
  Mixpanel.Projects.get_or_empty "results" doc ≫= Mixpanel.Projects.get_or_empty "projects"
  = Ret (JDict items) →
  ∃ n : nat,
    (n ≤ length items)%nat
    ∧ length (Mixpanel.Projects.parse_response doc).1 = n
    ∧ (∀ i : nat, (i < n)%nat →
         ∃ project_id info record,
           items !! i = Some (project_id, JDict info)
           ∧ (Mixpanel.Projects.parse_response doc).1 !! i = Some (JDict record)
           ∧ Dict.get "id" record = Some (JStr project_id)
           ∧ ∀ k, k ≠ "id" → Dict.get k record = Dict.get k info)
    ∧ ((Mixpanel.Projects.parse_response doc).2 = None ∧ n = length items
       ∨ (Mixpanel.Projects.parse_response doc).2 = Some TypeError
         ∧ ∃ project_id v,
             items !! n = Some (project_id, v) ∧ ∀ info, v ≠ JDict info).
Proof.
  intros Hdoc. unfold Mixpanel.Projects.parse_response. rewrite Hdoc.
  destruct (with_ids_spec items) as (n & Hn & Hlen & Hrec & Hend).
  exists n. repeat split; auto.
  intros i Hi. destruct (Hrec i Hi) as (project_id & info & Hitem & Hrecord).
  exists project_id, info, (Dict.set "id" (JStr project_id) info).
  repeat split; auto.
  - apply Dict_get_set_eq.
  - intros k Hk. by apply Dict_get_set_ne.
Qed.

Lemma projects_carry_their_key_witness :
  ∃ n : nat,
    (n ≤ 2)%nat
    ∧ length (Mixpanel.Projects.parse_response example_projects_document).1 = n
    ∧ (∀ i : nat, (i < n)%nat →
         ∃ project_id info record,
           [("12", JDict [("name", JStr "a"); ("id", JNum 5)]); ("13", JDict [])] !! i
           = Some (project_id, JDict info)
           ∧ (Mixpanel.Projects.parse_response example_projects_document).1 !! i
             = Some (JDict record)
           ∧ Dict.get "id" record = Some (JStr project_id)
           ∧ ∀ k, k ≠ "id" → Dict.get k record = Dict.get k info)
    ∧ ((Mixpanel.Projects.parse_response example_projects_document).2 = None ∧ n = 2%nat
       ∨ (Mixpanel.Projects.parse_response example_projects_document).2 = Some TypeError
         ∧ ∃ project_id v,
             [("12", JDict [("name", JStr "a"); ("id", JNum 5)]); ("13", JDict [])] !! n
             = Some (project_id, v) ∧ ∀ info, v ≠ JDict info).
Proof.
  exact (projects_carry_their_key example_projects_document
           [("12", JDict [("name", JStr "a"); ("id", JNum 5)]); ("13", JDict [])] eq_refl).
Defined.

(** A document without [results], or without [projects] under it, gives no
    project and no error. *)
Lemma projects_missing_keys (top : list (string * json)) :
  (Dict.get "results" top = None →
   Mixpanel.Projects.parse_response (JDict top) = ([], None))
  ∧ (∀ results, Dict.get "results" top = Some (JDict results) →
                Dict.get "projects" results = None →
                Mixpanel.Projects.parse_response (JDict top) = ([], None)).
Proof.
  unfold Mixpanel.Projects.parse_response. split.
  - intros H. cbn. by rewrite H.
  - intros results H1 H2. cbn. rewrite H1. cbn. by rewrite H2.
Qed.

(** ** Construction of a stream *)

Lemma project_slices_of_ids items ids :
  Forall2 (λ item id, Dict.get "id" item = Some id) items ids →
  Mixpanel.project_slices_of items = Ret ((λ id : json, [("project_id", id)]) <$> ids).
Proof.
  induction 1 as [|item id items ids Hid _ IH]; [done|].
  cbn [Mixpanel.project_slices_of]. unfold Dict.getitem. rewrite Hid.
  cbn [mbind py_bind]. rewrite IH. done.
Qed.

Lemma project_slices_of_missing items :
  (∃ item, item ∈ items ∧ Dict.get "id" item = None) →
  Mixpanel.project_slices_of items = Exc (KeyError "id").
Proof.
  intros (item & Hin & Hnone).
  induction items as [|item' rest IH]; [by apply elem_of_nil in Hin|].
  cbn [Mixpanel.project_slices_of]. unfold Dict.getitem.
  destruct (Dict.get "id" item') as [id|] eqn:E; [|done].
  cbn [mbind py_bind].
  apply elem_of_cons in Hin as [-> | Hin]; [congruence|].
  by rewrite IH.
Qed.

(** X19.  [__init__] turns the projects it is given into one slice
    [{project_id: id}] per project, in order; [stream_slices] of
    [ProjectSlicesMixin] then gives exactly these slices, and the single
    slice [None] when no project, or an empty list, was given, so it is never
    empty.  A project without [id] makes [__init__] raise [KeyError].  The
    region is [US] unless a non-empty one is given, and the base URL is on the
    [eu.] host for the region [EU] alone. *)
Theorem init_builds_the_project_slices
    (region : option string) (start_date end_date date_window_size attribution_window : Z)
    (select_properties_by_default : bool) (reqs_per_hour_limit : Z)
    (data_field : option string) (cursor_field : string) :
  let init projects :=
    Mixpanel.__init__ region start_date end_date date_window_size attribution_window
      select_properties_by_default projects reqs_per_hour_limit data_field cursor_field in
  (∀ items ids,
      Forall2 (λ item id, Dict.get "id" item = Some id) items ids →
      ∃ self,
        init (Some items) = Ret self
        ∧ Mixpanel.ProjectSlicesMixin.stream_slices self
          = match ids with
            | [] => [None]
            | _ => Some <$> ((λ id : json, [("project_id", id)]) <$> ids)
            end
        ∧ Mixpanel.ProjectSlicesMixin.stream_slices self ≠ [])
  ∧ (∀ items,
        (∃ item, item ∈ items ∧ Dict.get "id" item = None) →
        init (Some items) = Exc (KeyError "id"))
  ∧ (∃ self,
        init None = Ret self
        ∧ Mixpanel.ProjectSlicesMixin.stream_slices self = [None]
        ∧ Mixpanel.region self = (if Py.truthy_str (default "" region)
                                  then default "" region else "US")
        ∧ (Mixpanel.url_base self = "https://eu.mixpanel.com/api/2.0/" ↔ region = Some "EU")
        ∧ (region ≠ Some "EU" → Mixpanel.url_base self = "https://mixpanel.com/api/2.0/")).
Proof.
  cbn zeta. split; [|split].
  - intros items ids Hids. unfold Mixpanel.__init__.
    destruct Hids as [|item id items ids Hid Hrest].
    + eexists. split; [reflexivity|]. done.
    + rewrite (project_slices_of_ids (item :: items) (id :: ids)) by (by constructor).
      eexists. split; [reflexivity|]. done.
  - intros items Hmissing. unfold Mixpanel.__init__.
    destruct items as [|item rest].
    + destruct Hmissing as (item & Hin & _). by apply elem_of_nil in Hin.
    + by rewrite project_slices_of_missing.
  - eexists. split; [reflexivity|]. split; [done|].
    unfold Mixpanel.url_base. cbn [Mixpanel.region].
    destruct region as [[|c r]|]; cbn [default Py.truthy_str].
    + split; [done|]. split; [|done].
      split; [intros H; compute in H; discriminate | intros [=]].
    + split; [done|].
      destruct (String.eqb_spec (String c r) "EU") as [->|Hne]; cbn.
      * split; [done|]. intros H. by destruct H.
      * split; [|done].
        split; [intros H; compute in H; discriminate | intros H; destruct Hne; congruence].
    + split; [done|]. split; [|done].
      split; [intros H; compute in H; discriminate | intros [=]].
Qed.

Lemma init_builds_the_project_slices_witness :
  ∃ self,
    Mixpanel.__init__ (Some "EU") 737425 737495 30 5 true
      (Some [[("id", JStr "12"); ("name", JStr "a")]; [("id", JStr "13")]]) 60 None "date"
    = Ret self
    ∧ Mixpanel.ProjectSlicesMixin.stream_slices self
      = [Some [("project_id", JStr "12")]; Some [("project_id", JStr "13")]]
    ∧ Mixpanel.ProjectSlicesMixin.stream_slices self ≠ [].
Proof.
  apply (proj1 (init_builds_the_project_slices (Some "EU") 737425 737495 30 5 true 60 None
                  "date")
           [[("id", JStr "12"); ("name", JStr "a")]; [("id", JStr "13")]]
           [JStr "12"; JStr "13"]).
  repeat constructor.
Defined.

(** * Properties of [read_state] *)

Section ReadState.

Import Source.

Variable _read_json_file : string → py json.
Variable model_validate : json → py AirbyteStateMessage.

Lemma parse_messages_spec (docs : list json) : ∀ acc messages,
  parse_messages model_validate docs acc = Ret messages →
  ∃ new,
    messages = (acc ++ new)%list
    ∧ Forall2 (λ doc m, model_validate doc = Ret m) docs new
    ∧ Forall (λ m, is_blank m = false) new.
Proof.
  induction docs as [|doc rest IH]; intros acc messages; cbn [parse_messages].
  - intros [= <-]. exists []. by rewrite app_nil_r.
  - destruct (model_validate doc) as [m|] eqn:Em; cbn [mbind py_bind]; [|done].
    destruct (is_blank m) eqn:Eb; [done|].
    intros Hrest. apply IH in Hrest as (new & -> & Hall & Hblank).
    exists (m :: new). rewrite <- app_assoc.
    split; [done|]. split; by constructor.
Qed.

(** X20.  Without a path [read_state] reads no file and returns the empty
    state: the empty list of messages or, for a class that defines [read]
    itself, the empty mapping.  A file whose document is false for Python
    ([null], [false], [0], an empty text, list or object) gives the same; and
    if reading the file fails, so does [read_state], with the same
    exception. *)
Theorem read_state_without_state (overrides_read : bool) :
  let empty := if overrides_read then Mapping [] else Messages [] in
  read_state _read_json_file model_validate overrides_read "" = Ret empty
  ∧ (∀ state_path doc,
        state_path ≠ "" →
        _read_json_file state_path = Ret doc →
        truthy doc = false →
        read_state _read_json_file model_validate overrides_read state_path = Ret empty)
  ∧ (∀ state_path e,
        state_path ≠ "" →
        _read_json_file state_path = Exc e →
        read_state _read_json_file model_validate overrides_read state_path = Exc e).
Proof.
  cbn zeta. unfold read_state, _emit_legacy_state_format.
  split; [by destruct overrides_read|]. split.
  - intros [|c path] doc Hpath Hdoc Hfalse; [done|]. cbn [Py.truthy_str].
    rewrite Hdoc. cbn [mbind py_bind]. rewrite Hfalse. by destruct overrides_read.
  - intros [|c path] e Hpath Hdoc; [done|]. cbn [Py.truthy_str]. by rewrite Hdoc.
Qed.

(** X21.  For a class that does not define [read] itself, whatever
    [read_state] returns is a list of messages, none of which lacks all of
    [stream], [data] and [global_].  A list document gives the validated
    message of each element, in order; a non-empty object gives the single
    LEGACY message that carries it as [data]. *)
Theorem read_state_returns_messages (state_path : string) (state : State) :
  read_state _read_json_file model_validate false state_path = Ret state →
  ∃ messages,
    state = Messages messages
    ∧ Forall (λ m, is_blank m = false) messages
    ∧ (∀ docs, _read_json_file state_path = Ret (JList docs) → state_path ≠ "" →
               Forall2 (λ doc m, model_validate doc = Ret m) docs messages)
    ∧ (∀ d, _read_json_file state_path = Ret (JDict d) → state_path ≠ "" → d ≠ [] →
            messages = [{| type_ := Some LEGACY; stream := None; global_ := None;
                           data := Some d |}]).
Proof.
  unfold read_state.
  destruct state_path as [|c path]; cbn [Py.truthy_str].
  { intros [= <-]. exists []. repeat split; auto; done. }
  destruct (_read_json_file (String c path)) as [doc|] eqn:Edoc; cbn [mbind py_bind]; [|done].
  destruct (truthy doc) eqn:Etruthy; cbn [negb].
  - destruct doc as [| | | |docs|d]; cbn [emit_legacy_of]; try done.
    + destruct (parse_messages model_validate docs []) as [messages|] eqn:Ep; [|done].
      intros [= <-]. apply parse_messages_spec in Ep as (new & -> & Hall & Hblank).
      exists new. repeat split; auto.
      * intros docs' [= <-] _. done.
      * intros d [=].
    + intros [= <-]. unfold _emit_legacy_state_format. cbn in Etruthy. rewrite Etruthy.
      eexists. split; [done|]. split; [|split].
      * constructor; [|done]. unfold is_blank. cbn [stream data global_].
        rewrite Etruthy. by destruct (bool_decide _).
      * intros docs [=].
      * by intros d' [= <-] _ _.
  - intros [= <-]. exists []. split; [done|]. split; [done|]. split.
    + intros docs [= ->] _. by destruct docs.
    + intros d [= ->] _ Hd. by destruct d.
Qed.

End ReadState.

Lemma read_state_returns_messages_witness :
  ∃ messages,
    Source.Messages
      [{| Source.type_ := Some Source.LEGACY; Source.stream := None;
          Source.global_ := None; Source.data := Some [("cursor", JStr "2020-01-01")] |}]
    = Source.Messages messages
    ∧ Forall (λ m, Source.is_blank m = false) messages
    ∧ (∀ docs, Ret (JDict [("cursor", JStr "2020-01-01")]) = Ret (JList docs) →
               "state.json" ≠ "" →
               Forall2 (λ doc m, (@Exc Source.AirbyteStateMessage ValueError) = Ret m)
                 docs messages)
    ∧ (∀ d, Ret (JDict [("cursor", JStr "2020-01-01")]) = Ret (JDict d) →
            "state.json" ≠ "" → d ≠ [] →
            messages = [{| Source.type_ := Some Source.LEGACY; Source.stream := None;
                           Source.global_ := None; Source.data := Some d |}]).
Proof.
  exact (read_state_returns_messages
           (λ _, Ret (JDict [("cursor", JStr "2020-01-01")])) (λ _, Exc ValueError)
           "state.json" _ eq_refl).
Defined.

Lemma read_state_without_state_witness :
  Source.read_state (λ _, Ret (JDict [])) (λ _, Exc ValueError) false "state.json"
  = Ret (Source.Messages []).
Proof.
  refine (proj1 (proj2 (read_state_without_state (λ _, Ret (JDict [])) (λ _, Exc ValueError)
                          false)) "state.json" (JDict []) _ eq_refl eq_refl).
  discriminate.
Defined.
